(** * Sirocco national API client: a shallow embedding of [sirocco_api.py]

    The module is a set of independent functions, each of which validates
    its arguments, assembles a URL, performs one blocking GET and maps the
    answer to a return value.  The embedding keeps that shape:

    - Python values are the inductive [pyval]; exceptions are [exn];
    - the builtins the module calls ([int], [str], truthiness, [==], [<=],
      subscripting, iteration) are total functions on [pyval] returning an
      [outcome] (a value or a raised exception);
    - a function body is a computation in the monad [M], whose state is the
      log of requests sent and whose results distinguish normal completion,
      [return] and a raised exception;
    - the two collaborators that are not part of the module, [requests.get]
      and [pandas.to_datetime], and the process environment, are variables
      of the section [Client];
    - the clock helper [get_current_utc_datetime] takes the clock reading as
      its argument.

    Fragment.  A [str] is a sequence of code points below 256 (one [ascii]
    per code point).  Floats, bytes and tuples are outside the fragment.
    Exception messages follow CPython 3.11, and so does the limit on the
    digits of an integer: [int] refuses a literal of more than
    [int_max_str_digits] digits.  [py_str] is the text of a value, also
    where CPython gives up writing it (an integer of more digits than that
    limit, a container nested deeper than the recursion limit); [formats]
    tells the values that CPython writes without fail. *)

From Stdlib Require Import ZArith List String Ascii Bool Lia DecimalString DecimalPos
  DecimalZ.
Import ListNotations.

Local Open Scope string_scope.
Local Open Scope Z_scope.

Set Warnings "-register-all".

(** ** Values and exceptions *)

Inductive pyval : Type :=
| PyNone
| PyBool (b : bool)
| PyInt (n : Z)
| PyStr (s : string)
| PyList (items : list pyval)
| PyDict (entries : list (pyval * pyval)).

(** The class of an exception.  [ExcSubclass name ve] stands for any other
    subclass of [Exception]; [ve] tells whether it derives from
    [ValueError] (as [json.JSONDecodeError] and pandas'
    [OutOfBoundsDatetime] do). *)
Inductive exn_class : Type :=
| ValueError
| TypeError
| KeyError
| ExcSubclass (name : string) (derives_value_error : bool).

(** An exception: its class and [str(e)]. *)
Record exn : Type := mkExn { exn_cls : exn_class; exn_str : string }.

(** [isinstance(e, ValueError)], the test of [except ValueError]. *)
Definition is_ValueError (e : exn) : bool :=
  match exn_cls e with
  | ValueError => true
  | ExcSubclass _ ve => ve
  | TypeError | KeyError => false
  end.

(** [isinstance(e, Exception)], the test of [except Exception]: every
    exception of the fragment is one. *)
Definition is_Exception (e : exn) : bool := true.

(** What evaluating an expression gives. *)
Inductive outcome (A : Type) : Type :=
| Return (a : A)
| Raise (e : exn).

Arguments Return {A} a.
Arguments Raise {A} e.

(** ** Builtins *)

Definition type_name (v : pyval) : string :=
  match v with
  | PyNone => "NoneType"
  | PyBool _ => "bool"
  | PyInt _ => "int"
  | PyStr _ => "str"
  | PyList _ => "list"
  | PyDict _ => "dict"
  end.

(** [bool(v)], the test of [if v:] and of [and]. *)
Definition truthy (v : pyval) : bool :=
  match v with
  | PyNone => false
  | PyBool b => b
  | PyInt n => negb (n =? 0)
  | PyStr s => negb (String.eqb s "")
  | PyList l => match l with [] => false | _ :: _ => true end
  | PyDict d => match d with [] => false | _ :: _ => true end
  end.

(** [isinstance(v, bool)]. *)
Definition isinstance_bool (v : pyval) : bool :=
  match v with PyBool _ => true | _ => false end.

(** [str(n)] for an integer. *)
Definition str_of_Z (n : Z) : string := NilZero.string_of_int (Z.to_int n).

Definition hex_digit (n : N) : ascii :=
  ascii_of_N (if (n <? 10)%N then 48 + n else 87 + n)%N.

(** The escape [\xhh]. *)
Definition hex_escape (c : ascii) : string :=
  let n := N_of_ascii c in
  String "\" (String "x" (String (hex_digit (n / 16)) (String (hex_digit (n mod 16)) ""))).

Fixpoint contains_char (q : ascii) (s : string) : bool :=
  match s with
  | EmptyString => false
  | String c r => Ascii.eqb c q || contains_char q r
  end.

Definition apostrophe : ascii := ascii_of_N 39.
Definition double_quote : ascii := ascii_of_N 34.

(** One character of [repr(s)], inside the quote [q]. *)
Definition repr_char (q c : ascii) : string :=
  let n := N_of_ascii c in
  if Ascii.eqb c q || Ascii.eqb c "\" then String "\" (String c "")
  else if (n =? 9)%N then "\t"
  else if (n =? 10)%N then "\n"
  else if (n =? 13)%N then "\r"
  else if (n <? 32)%N || (n =? 127)%N then hex_escape c
  else if (n <? 127)%N then String c ""
  else if (n <=? 160)%N || (n =? 173)%N then hex_escape c
  else String c "".

Fixpoint repr_chars (q : ascii) (s : string) : string :=
  match s with
  | EmptyString => ""
  | String c r => repr_char q c ++ repr_chars q r
  end.

(** [repr(s)] for a string: single quotes, unless the string has a single
    quote and no double quote. *)
Definition repr_str (s : string) : string :=
  let q := if contains_char apostrophe s && negb (contains_char double_quote s)
           then double_quote else apostrophe in
  String q (repr_chars q s ++ String q "").

(** [repr(v)]. *)
Fixpoint py_repr (v : pyval) : string :=
  match v with
  | PyNone => "None"
  | PyBool b => if b then "True" else "False"
  | PyInt n => str_of_Z n
  | PyStr s => repr_str s
  | PyList l =>
      "[" ++ (fix items (l : list pyval) : string :=
                match l with
                | [] => ""
                | x :: r => py_repr x ++ match r with [] => "" | _ :: _ => ", " ++ items r end
                end) l ++ "]"
  | PyDict d =>
      "{" ++ (fix entries (d : list (pyval * pyval)) : string :=
                match d with
                | [] => ""
                | (k, x) :: r =>
                    py_repr k ++ ": " ++ py_repr x
                      ++ match r with [] => "" | _ :: _ => ", " ++ entries r end
                end) d ++ "}"
  end.

(** [str(v)], which is also what a replacement field [{v}] of an f-string
    inserts. *)
Definition py_str (v : pyval) : string :=
  match v with
  | PyStr s => s
  | _ => py_repr v
  end.

(** *** [int(v)] *)

(** White space around an integer literal: the ASCII white space of the C
    locale, and the two white-space code points between 128 and 255. *)
Definition is_space (c : ascii) : bool :=
  let n := N_of_ascii c in
  ((9 <=? n) && (n <=? 13) || (n =? 32) || (n =? 133) || (n =? 160))%N.

Definition digit_value (c : ascii) : option Z :=
  let n := N_of_ascii c in
  if ((48 <=? n) && (n <=? 57))%N then Some (Z.of_N n - 48) else None.

Fixpoint skip_spaces (s : string) : string :=
  match s with
  | EmptyString => s
  | String c r => if is_space c then skip_spaces r else s
  end.

(** Reads the rest of a run of digits, in which single underscores may
    separate digits; gives the number read and what follows it.  An
    underscore that no digit follows is an error. *)
Fixpoint scan_digits (acc : Z) (s : string) : option (Z * string) :=
  match s with
  | EmptyString => Some (acc, s)
  | String c r =>
      match digit_value c with
      | Some d => scan_digits (10 * acc + d) r
      | None =>
          if Ascii.eqb c "_" then
            match r with
            | EmptyString => None
            | String c' r' =>
                match digit_value c' with
                | Some d => scan_digits (10 * acc + d) r'
                | None => None
                end
            end
          else Some (acc, s)
      end
  end.

(** The literal grammar of [int(s)] in base 10: white space, an optional
    sign, digits, white space. *)
Definition parse_int (s : string) : option Z :=
  let s1 := skip_spaces s in
  let '(neg, s2) :=
    match s1 with
    | String c r =>
        if Ascii.eqb c "+" then (false, r)
        else if Ascii.eqb c "-" then (true, r)
        else (false, s1)
    | EmptyString => (false, s1)
    end in
  match s2 with
  | EmptyString => None
  | String c r =>
      match digit_value c with
      | None => None
      | Some d =>
          match scan_digits d r with
          | None => None
          | Some (n, rest) =>
              match skip_spaces rest with
              | EmptyString => Some (if neg then - n else n)
              | String _ _ => None
              end
          end
      end
  end.

(** [sys.get_int_max_str_digits()] at its default: the most digits that
    [int] reads from a string, and that [str] writes for an integer. *)
Definition int_max_str_digits : Z := 4300.

(** The number of digits in the run of digits and underscores with which
    [s] starts. *)
Fixpoint run_digits (s : string) : Z :=
  match s with
  | EmptyString => 0
  | String c r =>
      match digit_value c with
      | Some _ => 1 + run_digits r
      | None => if Ascii.eqb c "_" then run_digits r else 0
      end
  end.

(** The digits that [int(s)] has counted when it compares them with the
    limit: those of the run of digits after the white space and the sign.
    The comparison comes after the check of the underscores and before the
    look at what follows the run, so an ill-formed run counts for nothing
    here: the literal is invalid whatever its length. *)
Definition counted_digits (s : string) : Z :=
  let s1 := skip_spaces s in
  let s2 :=
    match s1 with
    | String c r => if Ascii.eqb c "+" || Ascii.eqb c "-" then r else s1
    | EmptyString => s1
    end in
  match s2 with
  | EmptyString => 0
  | String c r =>
      match digit_value c with
      | None => 0
      | Some d =>
          match scan_digits d r with
          | None => 0
          | Some _ => run_digits s2
          end
      end
  end.

Definition int_type_error (v : pyval) : exn :=
  mkExn TypeError
    ("int() argument must be a string, a bytes-like object or a real number, not '"
       ++ type_name v ++ "'").

(** The message shows the first 200 characters of [repr(s)]. *)
Definition int_literal_error (s : string) : exn :=
  mkExn ValueError
    ("invalid literal for int() with base 10: " ++ substring 0 200 (repr_str s)).

Definition int_limit_error (digits : Z) : exn :=
  mkExn ValueError
    ("Exceeds the limit (" ++ str_of_Z int_max_str_digits
       ++ " digits) for integer string conversion: value has " ++ str_of_Z digits
       ++ " digits; use sys.set_int_max_str_digits() to increase the limit").

Definition py_int (v : pyval) : outcome Z :=
  match v with
  | PyInt n => Return n
  | PyBool b => Return (if b then 1 else 0)
  | PyStr s =>
      if int_max_str_digits <? counted_digits s then
        Raise (int_limit_error (counted_digits s))
      else
        match parse_int s with
        | Some n => Return n
        | None => Raise (int_literal_error s)
        end
  | PyNone | PyList _ | PyDict _ => Raise (int_type_error v)
  end.

(** *** The limit when an integer is written

    [str(n)], and a replacement field that holds [n], raise a [ValueError]
    when [n] has more than [int_max_str_digits] digits. *)

(** The number of decimal digits of [n]. *)
Definition decimal_digits (n : Z) : Z := Z.of_nat (String.length (str_of_Z (Z.abs n))).

(** The values that [str] and a replacement field write without fail:
    [None], the booleans, the strings, and the integers within the limit.
    A list or a dict is left out: its text is made of the texts of its
    items, as deep as they are nested. *)
Definition formats (v : pyval) : bool :=
  match v with
  | PyNone | PyBool _ | PyStr _ => true
  | PyInt n => decimal_digits n <=? int_max_str_digits
  | PyList _ | PyDict _ => false
  end.


(** *** Comparison *)

Definition as_number (v : pyval) : option Z :=
  match v with
  | PyInt n => Some n
  | PyBool b => Some (if b then 1 else 0)
  | _ => None
  end.

(** [a == b].  Numbers compare by value ([True == 1]), lists item by item,
    dicts as finite maps. *)
Fixpoint py_eq (a b : pyval) {struct a} : bool :=
  match a, b with
  | PyNone, PyNone => true
  | PyBool x, PyBool y => Bool.eqb x y
  | PyBool x, PyInt n => (if x then 1 else 0) =? n
  | PyInt m, PyBool y => m =? (if y then 1 else 0)
  | PyInt m, PyInt n => m =? n
  | PyStr s, PyStr t => String.eqb s t
  | PyList l, PyList m =>
      (fix eq_items (l m : list pyval) : bool :=
         match l, m with
         | [], [] => true
         | x :: l', y :: m' => py_eq x y && eq_items l' m'
         | _, _ => false
         end) l m
  | PyDict d, PyDict e =>
      (List.length d =? List.length e)%nat &&
      (fix all_in (d : list (pyval * pyval)) : bool :=
         match d with
         | [] => true
         | (k, x) :: d' =>
             (fix find (e : list (pyval * pyval)) : bool :=
                match e with
                | [] => false
                | (k', y) :: e' => if py_eq k k' then py_eq x y else find e'
                end) e
             && all_in d'
         end) d
  | _, _ => false
  end.

Definition le_type_error (a b : pyval) : exn :=
  mkExn TypeError
    ("'<=' not supported between instances of '" ++ type_name a ++ "' and '"
       ++ type_name b ++ "'").

(** [a <= b]: numbers by value, strings by code point, lists
    lexicographically; any other pair of types is a [TypeError]. *)
Fixpoint py_le (a b : pyval) {struct a} : outcome bool :=
  match a, b with
  | PyList l, PyList m =>
      (fix le_items (l m : list pyval) : outcome bool :=
         match l, m with
         | [], _ => Return true
         | _ :: _, [] => Return false
         | x :: l', y :: m' => if py_eq x y then le_items l' m' else py_le x y
         end) l m
  | PyStr s, PyStr t => Return (String.leb s t)
  | _, _ =>
      match as_number a, as_number b with
      | Some m, Some n => Return (m <=? n)
      | _, _ => Raise (le_type_error a b)
      end
  end.

(** *** Containers *)

(** Looks a key up in the entries of a dict. *)
Fixpoint dict_get (d : list (pyval * pyval)) (k : pyval) : option pyval :=
  match d with
  | [] => None
  | (k', x) :: r => if py_eq k' k then Some x else dict_get r k
  end.

(** [v[key]] for a string key. *)
Definition py_getitem (v : pyval) (key : string) : outcome pyval :=
  match v with
  | PyDict d =>
      match dict_get d (PyStr key) with
      | Some x => Return x
      | None => Raise (mkExn KeyError (repr_str key))
      end
  | PyList _ =>
      Raise (mkExn TypeError "list indices must be integers or slices, not str")
  | PyStr _ =>
      Raise (mkExn TypeError "string indices must be integers, not 'str'")
  | PyNone | PyBool _ | PyInt _ =>
      Raise (mkExn TypeError ("'" ++ type_name v ++ "' object is not subscriptable"))
  end.

Fixpoint chars_of (s : string) : list pyval :=
  match s with
  | EmptyString => []
  | String c r => PyStr (String c "") :: chars_of r
  end.

(** What [for p in v] goes through. *)
Definition py_iter (v : pyval) : outcome (list pyval) :=
  match v with
  | PyList l => Return l
  | PyDict d => Return (map fst d)
  | PyStr s => Return (chars_of s)
  | PyNone | PyBool _ | PyInt _ =>
      Raise (mkExn TypeError ("'" ++ type_name v ++ "' object is not iterable"))
  end.

Definition hashable (k : pyval) : bool :=
  match k with
  | PyList _ | PyDict _ => false
  | _ => true
  end.

(** Stores [x] under [k]: an equal key keeps its place and takes the new
    value, a new key goes last. *)
Fixpoint dict_store (d : list (pyval * pyval)) (k x : pyval) : list (pyval * pyval) :=
  match d with
  | [] => [(k, x)]
  | (k', y) :: r => if py_eq k' k then (k', x) :: r else (k', y) :: dict_store r k x
  end.

(** [d[k] = x], which needs a hashable key. *)
Definition dict_setitem (d : list (pyval * pyval)) (k x : pyval)
  : outcome (list (pyval * pyval)) :=
  if hashable k then Return (dict_store d k x)
  else Raise (mkExn TypeError ("unhashable type: '" ++ type_name k ++ "'")).

(** ** Requests, responses and the monad of function bodies *)

(** A GET request: the URL and the [headers] argument ([[]] when the call
    passes none). *)
Record request : Type := mkRequest {
  req_url : string;
  req_headers : list (string * string)
}.

(** What the module reads of a response: [status_code], and what
    [response.json()] gives. *)
Record response : Type := mkResponse {
  status_code : Z;
  json : outcome pyval
}.

(** How a block of statements ends: it runs to its end with a value, it
    executes [return v], or it raises. *)
Inductive result (A : Type) : Type :=
| Ok (a : A)
| Ret (v : pyval)
| Exc (e : exn).

Arguments Ok {A} a.
Arguments Ret {A} v.
Arguments Exc {A} e.

(** A block of statements, run on the log of the requests sent so far. *)
Definition M (A : Type) : Type := list request -> result A * list request.

Definition ok {A} (a : A) : M A := fun log => (Ok a, log).

Definition return_ {A} (v : pyval) : M A := fun log => (Ret v, log).

Definition raise {A} (e : exn) : M A := fun log => (Exc e, log).

Definition bind {A B} (m : M A) (k : A -> M B) : M B :=
  fun log =>
    match m log with
    | (Ok a, log') => k a log'
    | (Ret v, log') => (Ret v, log')
    | (Exc e, log') => (Exc e, log')
    end.

Declare Scope py_scope.
Delimit Scope py_scope with py.
Notation "x <- m ;; k" := (bind m (fun x => k))
  (at level 61, m at next level, right associativity) : py_scope.
Notation "' p <- m ;; k" := (bind m (fun p => k))
  (at level 61, p pattern, m at next level, right associativity) : py_scope.
Notation "m ;; k" := (bind m (fun _ => k))
  (at level 61, right associativity) : py_scope.

(** Evaluates an expression inside a block. *)
Definition eval {A} (o : outcome A) : M A :=
  match o with
  | Return a => ok a
  | Raise e => raise e
  end.

(** [try: body  except C as e: handler], where [catches] is
    [isinstance(_, C)]. *)
Definition try_except {A} (body : M A) (catches : exn -> bool) (handler : exn -> M A) : M A :=
  fun log =>
    match body log with
    | (Exc e, log') => if catches e then handler e log' else (Exc e, log')
    | r => r
    end.

(** A call of a function with the given body; a body that runs to its end
    returns [None]. *)
Definition call (body : M unit) (log : list request) : outcome pyval * list request :=
  match body log with
  | (Ok _, log') => (Return PyNone, log')
  | (Ret v, log') => (Return v, log')
  | (Exc e, log') => (Raise e, log')
  end.

(** ** The module *)

Definition API_VERSION : string := "v1.1".

Definition date_format : string := "%Y-%m-%d %H:%M:%S".

Section Client.

(** [os.environ.get("SIROCCO_API")]. *)
Variable SIROCCO_API : option string.

(** [requests.get]: the answer of the network to a request, a response
    or an exception. *)
Variable network : request -> outcome response.

(** [pd.to_datetime(arg, format=...)]. *)
Variable pd_to_datetime : pyval -> string -> outcome pyval.

Definition API_TOKEN : string :=
  match SIROCCO_API with
  | Some s => if truthy (PyStr s) then s else "your_personal_token_here"
  | None => "your_personal_token_here"
  end.

(** [requests.get(url, headers=headers)]: logs the request and gives the
    network's answer. *)
Definition requests_get (url : string) (headers : list (string * string)) : M response :=
  fun log =>
    let r := mkRequest url headers in
    match network r with
    | Return resp => (Ok resp, (log ++ [r])%list)
    | Raise e => (Exc e, (log ++ [r])%list)
    end.

Local Open Scope py_scope.

Definition get_available_timezones : list request -> outcome pyval * list request :=
  call (
    let url := "https://api.sirocco.energy/national/timezones/" ++ API_VERSION ++ "/" in
    try_except
      (response <- requests_get url [] ;;
       if status_code response =? 200 then
         body <- eval (json response) ;;
         return_ body
       else
         return_ (PyStr ("Error: Received response with status code "
                           ++ py_str (PyInt (status_code response)))))
      is_Exception
      (fun e => return_ (PyStr ("Error: An exception occurred - " ++ exn_str e)))).

(** The dict comprehension [{p["id"]: p["name"] for p in runs}]. *)
Fixpoint id_name_comprehension (acc : list (pyval * pyval)) (runs : list pyval)
  : outcome (list (pyval * pyval)) :=
  match runs with
  | [] => Return acc
  | p :: rest =>
      match py_getitem p "id" with
      | Raise e => Raise e
      | Return k =>
          match py_getitem p "name" with
          | Raise e => Raise e
          | Return x =>
              match dict_setitem acc k x with
              | Raise e => Raise e
              | Return acc' => id_name_comprehension acc' rest
              end
          end
      end
  end.

Definition get_my_projects (return_id_project : pyval)
  : list request -> outcome pyval * list request :=
  call (
    (if negb (isinstance_bool return_id_project) then
       raise (mkExn ValueError "Error: return_id_project must be a boolean")
     else ok tt) ;;
    let url := "https://api.sirocco.energy/national/projects/" ++ API_VERSION ++ "/" in
    let headers := [("Authorization", API_TOKEN)] in
    try_except
      (response <- requests_get url headers ;;
       if status_code response =? 200 then
         (if truthy return_id_project then
            body <- eval (json response) ;;
            control <- eval (py_getitem body "control") ;;
            if py_eq control (PyStr "Success") then
              my_projects <- eval (json response) ;;
              runs <- eval (py_getitem my_projects "runs") ;;
              items <- eval (py_iter runs) ;;
              mapping <- eval (id_name_comprehension [] items) ;;
              return_ (PyDict mapping)
            else ok tt
          else ok tt) ;;
         body <- eval (json response) ;;
         return_ body
       else
         return_ (PyStr ("Error: Received response with status code "
                           ++ py_str (PyInt (status_code response)))))
      is_Exception
      (fun e => return_ (PyStr ("Error: An exception occurred - " ++ exn_str e)))).

Definition get_forecasts_info (run timezone : pyval)
  : list request -> outcome pyval * list request :=
  call (
    let url := "https://api.sirocco.energy/national/forecast/" ++ API_VERSION
                 ++ "/?run=" ++ py_str run ++ "&timezone=" ++ py_str timezone in
    let headers := [("Authorization", API_TOKEN)] in
    try_except
      (response <- requests_get url headers ;;
       if status_code response =? 200 then
         body <- eval (json response) ;;
         return_ body
       else
         return_ (PyStr ("Error: Received response with status code "
                           ++ py_str (PyInt (status_code response)))))
      is_Exception
      (fun e => return_ (PyStr ("Error: An exception occurred - " ++ exn_str e)))).

Definition get_selected_forecast (run timezone init_date end_date : pyval)
  : list request -> outcome pyval * list request :=
  call (
    try_except
      (eval (py_int run) ;; ok tt)
      is_ValueError
      (fun _ => return_ (PyStr
         "Error: run must be an integer or a string that can be converted to an integer")) ;;
    let url := "https://api.sirocco.energy/national/selectedforecast/" ++ API_VERSION
                 ++ "/?run=" ++ py_str run ++ "&timezone=" ++ py_str timezone in
    url <- (if truthy init_date then
              try_except
                (eval (pd_to_datetime end_date date_format) ;; ok tt)
                is_ValueError
                (fun _ => return_ (PyStr
                   "Error: init_date must be in the format YYYY-mm-dd HH:MM:SS")) ;;
              ok (url ++ "&init=" ++ py_str init_date)
            else ok url) ;;
    url <- (if truthy end_date then
              try_except
                (eval (pd_to_datetime end_date date_format) ;; ok tt)
                is_ValueError
                (fun _ => return_ (PyStr
                   "Error: end_date must be in the format YYYY-mm-dd HH:MM:SS")) ;;
              ok (url ++ "&end=" ++ py_str end_date)
            else ok url) ;;
    let headers := [("Authorization", API_TOKEN)] in
    try_except
      (response <- requests_get url headers ;;
       if status_code response =? 200 then
         body <- eval (json response) ;;
         return_ body
       else
         return_ (PyStr ("Error: Received response with status code "
                           ++ py_str (PyInt (status_code response)))))
      is_Exception
      (fun e => return_ (PyStr ("Error: An exception occurred - " ++ exn_str e)))).

Definition get_backtests_info (run timezone init_date end_date : pyval)
  : list request -> outcome pyval * list request :=
  call (
    try_except
      (eval (py_int run) ;; ok tt)
      is_ValueError
      (fun _ => return_ (PyStr
         "Error: run must be an integer or a string that can be converted to an integer")) ;;
    let url := "https://api.sirocco.energy/national/backtests/" ++ API_VERSION
                 ++ "/?run=" ++ py_str run ++ "&timezone=" ++ py_str timezone in
    url <- (if truthy init_date then
              try_except
                (eval (pd_to_datetime end_date date_format) ;; ok tt)
                is_ValueError
                (fun _ => return_ (PyStr
                   "Error: init_date must be in the format YYYY-mm-dd HH:MM:SS")) ;;
              ok (url ++ "&init=" ++ py_str init_date)
            else ok url) ;;
    url <- (if truthy end_date then
              try_except
                (eval (pd_to_datetime end_date date_format) ;; ok tt)
                is_ValueError
                (fun _ => return_ (PyStr
                   "Error: end_date must be in the format YYYY-mm-dd HH:MM:SS")) ;;
              ok (url ++ "&end=" ++ py_str end_date)
            else ok url) ;;
    let headers := [("Authorization", API_TOKEN)] in
    try_except
      (response <- requests_get url headers ;;
       if status_code response =? 200 then
         body <- eval (json response) ;;
         return_ body
       else
         return_ (PyStr ("Error: Received response with status code "
                           ++ py_str (PyInt (status_code response)))))
      is_Exception
      (fun e => return_ (PyStr ("Error: An exception occurred - " ++ exn_str e)))).

Definition get_selected_backtests
  (run init_date end_date init_ahead end_ahead timezone : pyval)
  : list request -> outcome pyval * list request :=
  call (
    try_except
      (eval (py_int run) ;; ok tt)
      is_ValueError
      (fun _ => return_ (PyStr
         "Error: run must be an integer or a string that can be converted to an integer")) ;;
    let url := "https://api.sirocco.energy/national/selectedbacktests/" ++ API_VERSION
                 ++ "/?run=" ++ py_str run ++ "&timezone=" ++ py_str timezone in
    url <- (if truthy init_date then
              try_except
                (eval (pd_to_datetime init_date date_format) ;; ok tt)
                is_ValueError
                (fun _ => return_ (PyStr
                   "Error: init_date must be in the format YYYY-mm-dd HH:MM:SS")) ;;
              ok (url ++ "&init=" ++ py_str init_date)
            else ok url) ;;
    url <- (if truthy end_date then
              try_except
                (eval (pd_to_datetime end_date date_format) ;; ok tt)
                is_ValueError
                (fun _ => return_ (PyStr
                   "Error: end_date must be in the format YYYY-mm-dd HH:MM:SS")) ;;
              ok (url ++ "&end=" ++ py_str end_date)
            else ok url) ;;
    '(init_ahead, url) <-
      (if truthy init_ahead then
         init_ahead <-
           try_except
             (n <- eval (py_int init_ahead) ;;
              (if n <? 0 then
                 raise (mkExn ValueError "Error: init_ahead must be a positive integer")
               else ok tt) ;;
              ok (PyInt n))
             is_ValueError
             (fun _ => return_ (PyStr "Error: init_ahead must be a positive integer")) ;;
         ok (init_ahead, url ++ "&init_ahead=" ++ py_str init_ahead)
       else ok (init_ahead, url)) ;;
    '(end_ahead, url) <-
      (if truthy end_ahead then
         end_ahead <-
           try_except
             (n <- eval (py_int end_ahead) ;;
              (if n <? 0 then
                 raise (mkExn ValueError "Error: end_ahead must be a positive integer")
               else ok tt) ;;
              ok (PyInt n))
             is_ValueError
             (fun _ => return_ (PyStr "Error: end_ahead must be a positive integer")) ;;
         ok (end_ahead, url ++ "&end_ahead=" ++ py_str end_ahead)
       else ok (end_ahead, url)) ;;
    out_of_order <-
      (if truthy end_ahead then
         if truthy init_ahead then eval (py_le end_ahead init_ahead) else ok false
       else ok false) ;;
    (if out_of_order then
       raise (mkExn ValueError "Error: end_ahead must be greater than init_ahead")
     else ok tt) ;;
    let headers := [("Authorization", API_TOKEN)] in
    try_except
      (response <- requests_get url headers ;;
       if status_code response =? 200 then
         body <- eval (json response) ;;
         return_ body
       else
         return_ (PyStr ("Error: Received response with status code "
                           ++ py_str (PyInt (status_code response)))))
      is_Exception
      (fun e => return_ (PyStr ("Error: An exception occurred - " ++ exn_str e)))).

End Client.

(** ** The clock helper

    [get_current_utc_datetime] formats [datetime.now(timezone.utc)].  The
    clock is the argument [utc_now]; of a [datetime] the model keeps the six
    fields that the format reads.  [strftime] knows the directives the
    module uses, and [%%]; a year is written with four digits, which is what
    every platform does from the year 1000 on. *)

Record datetime : Type := mkDatetime {
  year : Z; month : Z; day : Z; hour : Z; minute : Z; second : Z
}.

(** The last decimal digit of [n], as a character. *)
Definition digit_char (n : Z) : ascii := ascii_of_N (48 + Z.to_N (n mod 10)).

Definition two_digits (n : Z) : string :=
  String (digit_char (n / 10)) (String (digit_char n) "").

Definition four_digits (n : Z) : string :=
  String (digit_char (n / 1000)) (String (digit_char (n / 100)) (two_digits n)).

Definition directive (d : datetime) (c : ascii) : option string :=
  if Ascii.eqb c "Y" then Some (four_digits (year d))
  else if Ascii.eqb c "m" then Some (two_digits (month d))
  else if Ascii.eqb c "d" then Some (two_digits (day d))
  else if Ascii.eqb c "H" then Some (two_digits (hour d))
  else if Ascii.eqb c "M" then Some (two_digits (minute d))
  else if Ascii.eqb c "S" then Some (two_digits (second d))
  else if Ascii.eqb c "%" then Some "%"
  else None.

(** [d.strftime(format)]. *)
Fixpoint strftime (d : datetime) (format : string) : string :=
  match format with
  | EmptyString => ""
  | String c rest =>
      if Ascii.eqb c "%" then
        match rest with
        | EmptyString => "%"
        | String k rest' =>
            match directive d k with
            | Some s => s ++ strftime d rest'
            | None => String c (String k (strftime d rest'))
            end
        end
      else String c (strftime d rest)
  end.

Definition get_current_utc_datetime (utc_now : datetime) : string :=
  let utc_datetime := strftime utc_now "%Y/%m/%d %H:%M:%S" in
  utc_datetime.

(** The ranges of the fields of a [datetime], for a year of four digits. *)
Definition valid_datetime (d : datetime) : Prop :=
  1000 <= year d <= 9999 /\ 1 <= month d <= 12 /\ 1 <= day d <= 31
  /\ 0 <= hour d <= 23 /\ 0 <= minute d <= 59 /\ 0 <= second d <= 59.

(** ** Operations as data

    One constructor per public function with its arguments, so that a
    property of every operation is a property of [invoke]. *)

Inductive invocation : Type :=
| AvailableTimezones
| MyProjects (return_id_project : pyval)
| ForecastsInfo (run timezone : pyval)
| SelectedForecast (run timezone init_date end_date : pyval)
| BacktestsInfo (run timezone init_date end_date : pyval)
| SelectedBacktests (run init_date end_date init_ahead end_ahead timezone : pyval).

Definition invoke (env : option string) (net : request -> outcome response)
  (to_datetime : pyval -> string -> outcome pyval) (i : invocation)
  : list request -> outcome pyval * list request :=
  match i with
  | AvailableTimezones => get_available_timezones net
  | MyProjects flag => get_my_projects env net flag
  | ForecastsInfo run tz => get_forecasts_info env net run tz
  | SelectedForecast run tz i e => get_selected_forecast env net to_datetime run tz i e
  | BacktestsInfo run tz i e => get_backtests_info env net to_datetime run tz i e
  | SelectedBacktests run i e ia ea tz =>
      get_selected_backtests env net to_datetime run i e ia ea tz
  end.

(** The operations that take a [run]. *)
Definition run_of (i : invocation) : option pyval :=
  match i with
  | AvailableTimezones | MyProjects _ => None
  | ForecastsInfo run _ | SelectedForecast run _ _ _ | BacktestsInfo run _ _ _
  | SelectedBacktests run _ _ _ _ _ => Some run
  end.

(** The operations that check [run] with [int(run)]. *)
Definition validates_run (i : invocation) : bool :=
  match i with
  | SelectedForecast _ _ _ _ | BacktestsInfo _ _ _ _ | SelectedBacktests _ _ _ _ _ _ => true
  | AvailableTimezones | MyProjects _ | ForecastsInfo _ _ => false
  end.

Definition endpoint_of (i : invocation) : string :=
  match i with
  | AvailableTimezones => "timezones"
  | MyProjects _ => "projects"
  | ForecastsInfo _ _ => "forecast"
  | SelectedForecast _ _ _ _ => "selectedforecast"
  | BacktestsInfo _ _ _ _ => "backtests"
  | SelectedBacktests _ _ _ _ _ _ => "selectedbacktests"
  end.

(** The [timezone] argument ([None] for the operations without one). *)
Definition timezone_of (i : invocation) : pyval :=
  match i with
  | AvailableTimezones | MyProjects _ => PyNone
  | ForecastsInfo _ tz | SelectedForecast _ tz _ _ | BacktestsInfo _ tz _ _
  | SelectedBacktests _ _ _ _ _ tz => tz
  end.

(** ** Stand-ins for the collaborators, for running the module on examples *)

(** A network that gives the same answer to every request. *)
Definition answering (o : outcome response) : request -> outcome response := fun _ => o.

Definition is_digit (c : ascii) : bool :=
  match digit_value c with Some _ => true | None => false end.

(** Tells whether a string has the shape of the characters of [pattern],
    where [d] stands for a digit and any other character for itself. *)
Fixpoint has_shape (pattern s : string) : bool :=
  match pattern, s with
  | EmptyString, EmptyString => true
  | String p pr, String c r =>
      (if Ascii.eqb p "d" then is_digit c else Ascii.eqb p c) && has_shape pr r
  | _, _ => false
  end.

(** A date parser for the examples: [None] goes through, a string of the
    shape [dddd-dd-dd dd:dd:dd] goes through, anything else is a
    [ValueError].  It stands for a parser that is strict on the format; it
    does not check the calendar. *)
Definition shape_to_datetime (arg : pyval) (format : string) : outcome pyval :=
  match arg with
  | PyNone => Return PyNone
  | PyStr s =>
      if has_shape "dddd-dd-dd dd:dd:dd" s then Return arg
      else Raise (mkExn ValueError
                    ("time data " ++ repr_str s ++ " does not match format " ++ repr_str format))
  | _ => Raise (mkExn TypeError ("cannot convert " ++ type_name arg))
  end.

Definition UTC : pyval := PyStr "UTC".

Definition json_ok (status : Z) (body : pyval) : outcome response :=
  Return (mkResponse status (Return body)).

(** Networks, a date, the header and a body for the examples. *)
Definition data_net : request -> outcome response := answering (json_ok 200 (PyStr "data")).

Definition not_found_net : request -> outcome response := answering (json_ok 404 PyNone).

Definition a_date : pyval := PyStr "2024-01-01 00:00:00".

Definition auth : list (string * string) := [("Authorization", "your_personal_token_here")].

Definition north_south : list pyval :=
  [PyDict [(PyStr "id", PyInt 3); (PyStr "name", PyStr "north")];
   PyDict [(PyStr "id", PyInt 4); (PyStr "name", PyStr "south")]].

Definition projects_body : pyval :=
  PyDict [(PyStr "control", PyStr "Success"); (PyStr "runs", PyList north_south)].

Definition projects_net : request -> outcome response := answering (json_ok 200 projects_body).

(** A body with ["control"] and nothing else. *)
Definition success_only : pyval := PyDict [(PyStr "control", PyStr "Success")].

(** ** Vocabulary of the statements *)

(** The values and exceptions with which the checks answer. *)
Definition run_error : pyval :=
  PyStr "Error: run must be an integer or a string that can be converted to an integer".

Definition init_date_error : pyval :=
  PyStr "Error: init_date must be in the format YYYY-mm-dd HH:MM:SS".

Definition end_date_error : pyval :=
  PyStr "Error: end_date must be in the format YYYY-mm-dd HH:MM:SS".

Definition init_ahead_error : pyval := PyStr "Error: init_ahead must be a positive integer".

Definition end_ahead_error : pyval := PyStr "Error: end_ahead must be a positive integer".

Definition order_error : exn :=
  mkExn ValueError "Error: end_ahead must be greater than init_ahead".

Definition flag_error : exn := mkExn ValueError "Error: return_id_project must be a boolean".

(** The request of [get_my_projects]. *)
Definition projects_request (env : option string) : request :=
  mkRequest ("https://api.sirocco.energy/national/projects/" ++ API_VERSION ++ "/")
            [("Authorization", API_TOKEN env)].

(** Every key of the entries can be a key. *)
Definition hashable_keys (d : list (pyval * pyval)) : Prop :=
  Forall (fun e => hashable (fst e) = true) d.

(** [p] is a project record with id [fst e] and name [snd e]: both
    subscripts succeed and the id can be a key. *)
Definition is_project (p : pyval) (e : pyval * pyval) : Prop :=
  py_getitem p "id" = Return (fst e) /\ py_getitem p "name" = Return (snd e)
  /\ hashable (fst e) = true.

(** A date argument passes its check: it is falsy, so that the check is
    skipped, or the parser returns on it. *)
Definition date_passes (to_datetime : pyval -> string -> outcome pyval) (d : pyval) : Prop :=
  truthy d = true -> exists v, to_datetime d date_format = Return v.

(** An argument declared [int = None], as the signature has the offsets. *)
Definition opt_int (o : option Z) : pyval :=
  match o with
  | Some n => PyInt n
  | None => PyNone
  end.

(** ** The URL rule of the specification

    These definitions follow the words of the specification, not the
    code: the template, then [&init=], [&end=], [&init_ahead=] and
    [&end_ahead=] in this order, each for an argument that is supplied.
    An argument counts as supplied when it is truthy: [None], the empty
    string and [0] do not. *)

Definition url_template (endpoint : string) (run timezone : pyval) : string :=
  "https://api.sirocco.energy/national/" ++ endpoint ++ "/" ++ API_VERSION
    ++ "/?run=" ++ py_str run ++ "&timezone=" ++ py_str timezone.

Definition date_param (name : string) (v : pyval) : string :=
  if truthy v then "&" ++ name ++ "=" ++ py_str v else "".

Definition ahead_param (name : string) (v : pyval) : string :=
  if truthy v then
    match py_int v with
    | Return n => "&" ++ name ++ "=" ++ str_of_Z n
    | Raise _ => ""
    end
  else "".

Definition spec_url (i : invocation) : string :=
  match i with
  | AvailableTimezones => "https://api.sirocco.energy/national/timezones/" ++ API_VERSION ++ "/"
  | MyProjects _ => "https://api.sirocco.energy/national/projects/" ++ API_VERSION ++ "/"
  | ForecastsInfo run tz => url_template "forecast" run tz
  | SelectedForecast run tz init_date end_date =>
      url_template "selectedforecast" run tz
        ++ date_param "init" init_date ++ date_param "end" end_date
  | BacktestsInfo run tz init_date end_date =>
      url_template "backtests" run tz
        ++ date_param "init" init_date ++ date_param "end" end_date
  | SelectedBacktests run init_date end_date init_ahead end_ahead tz =>
      url_template "selectedbacktests" run tz
        ++ date_param "init" init_date ++ date_param "end" end_date
        ++ ahead_param "init_ahead" init_ahead ++ ahead_param "end_ahead" end_ahead
  end.

(** ** Vocabulary of the further statements *)

(** The headers an operation sends. *)
Definition expected_headers (env : option string) (i : invocation) : list (string * string) :=
  match i with
  | AvailableTimezones => []
  | _ => [("Authorization", API_TOKEN env)]
  end.

(** The arguments that a call writes into its URL are values that
    [formats]. *)
Definition arguments_format (i : invocation) : bool :=
  match i with
  | AvailableTimezones | MyProjects _ => true
  | ForecastsInfo run tz => formats run && formats tz
  | SelectedForecast run tz init_date end_date | BacktestsInfo run tz init_date end_date =>
      formats run && formats tz && formats init_date && formats end_date
  | SelectedBacktests run init_date end_date init_ahead end_ahead tz =>
      formats run && formats tz && formats init_date && formats end_date
        && formats init_ahead && formats end_ahead
  end.

(** The calls that have no check to fail: the operations without
    validation, with arguments that can be written into the URL, and
    [get_my_projects] with a boolean flag. *)
Definition always_dispatches (i : invocation) : bool :=
  match i with
  | AvailableTimezones => true
  | ForecastsInfo _ _ => arguments_format i
  | MyProjects flag => isinstance_bool flag
  | SelectedForecast _ _ _ _ | BacktestsInfo _ _ _ _ | SelectedBacktests _ _ _ _ _ _ => false
  end.

(** The same call with another [run]. *)
Definition with_run (run : pyval) (i : invocation) : invocation :=
  match i with
  | AvailableTimezones => AvailableTimezones
  | MyProjects flag => MyProjects flag
  | ForecastsInfo _ tz => ForecastsInfo run tz
  | SelectedForecast _ tz i e => SelectedForecast run tz i e
  | BacktestsInfo _ tz i e => BacktestsInfo run tz i e
  | SelectedBacktests _ i e ia ea tz => SelectedBacktests run i e ia ea tz
  end.

(** No project has the id of an earlier one. *)
Definition distinct_ids (projects : list (pyval * pyval)) : Prop :=
  ForallOrdPairs (fun a b => py_eq (fst a) (fst b) = false) projects.

(** An offset passes its check: it is falsy, so that the check is
    skipped, or [int] gives for it a number that is not negative. *)
Definition offset_passes (v : pyval) : Prop :=
  truthy v = true -> exists a, py_int v = Return a /\ 0 <= a.

(** A string of [k] digits 7. *)
Fixpoint sevens (k : nat) : string :=
  match k with
  | O => ""
  | S k' => String "7" (sevens k')
  end.

(** A clock reading and two records for the examples. *)
Definition noon : datetime := mkDatetime 2024 3 9 12 0 5.

Definition no_id : pyval := PyDict [(PyStr "name", PyStr "east")].

(** ** Properties *)

(** The scrutinee that blocks the evaluation of a term. *)
Ltac head_scrutinee t :=
  lazymatch t with
  | match ?x with _ => _ end => head_scrutinee x
  | (match ?x with _ => _ end) _ => head_scrutinee x
  | _ => t
  end.

(** Case analysis on what blocks the left-hand side of the goal. *)
Ltac case_head :=
  lazymatch goal with
  | |- ?l = _ -> _ =>
      let x := head_scrutinee l in
      lazymatch x with
      | l => fail "nothing to analyse"
      | _ =>
          destruct x eqn:?;
          cbn [truthy py_int py_le py_str py_repr as_number is_ValueError is_Exception
                 exn_cls exn_str append]
      end
  | |- ?l = _ =>
      let x := head_scrutinee l in
      lazymatch x with
      | l => fail "nothing to analyse"
      | _ =>
          destruct x eqn:?;
          cbn [truthy py_int py_le py_str py_repr as_number is_ValueError is_Exception
                 exn_cls exn_str append]
      end
  end.

Lemma log_grows (A : Type) (log : list A) (r : A) : (log ++ [r])%list <> log.
Proof.
  intros H. apply (f_equal (@List.length A)) in H.
  rewrite length_app in H. simpl in H. lia.
Qed.

Lemma log_last (A : Type) (log : list A) (r r' : A) :
  (log ++ [r])%list = (log ++ [r'])%list -> r = r'.
Proof.
  intros H. apply app_inv_head in H. congruence.
Qed.

Lemma str_app_assoc (a b c : string) : ((a ++ b) ++ c = a ++ (b ++ c))%string.
Proof.
  induction a as [| x a IH]; simpl; [reflexivity | now rewrite IH].
Qed.

Lemma str_app_nil_r (a : string) : (a ++ "" = a)%string.
Proof.
  induction a as [| x a IH]; simpl; [reflexivity | now rewrite IH].
Qed.

(** Rewrites with the equations that case analysis left in the context. *)
Ltac use_cases :=
  repeat match goal with
         | H : truthy ?x = _ |- context [truthy ?x] => rewrite H
         | H : py_int ?x = _ |- context [py_int ?x] => rewrite H
         end.

Ltac key_cases :=
  repeat match goal with
         | H : Bool.eqb _ _ = true |- _ => apply Bool.eqb_prop in H
         | H : (_ =? _) = true |- _ => apply Z.eqb_eq in H
         | H : String.eqb _ _ = true |- _ => apply String.eqb_eq in H
         end;
  subst;
  repeat match goal with b : bool |- _ => destruct b end;
  simpl in *;
  try reflexivity; try discriminate; try lia;
  try (apply Z.eqb_eq; lia);
  try (apply Z.eqb_refl);
  try (apply String.eqb_refl).

(** On hashable values [==] is symmetric and transitive. *)
Lemma py_eq_sym (a b : pyval) :
  hashable a = true -> py_eq a b = true -> py_eq b a = true.
Proof.
  intros Ha.
  destruct a as [| x | m | s | |], b as [| y | n | t | |]; simpl;
    try discriminate; intros E; key_cases.
Qed.

Lemma py_eq_trans (a b c : pyval) :
  hashable a = true -> hashable b = true ->
  py_eq a b = true -> py_eq b c = true -> py_eq a c = true.
Proof.
  intros Ha Hb.
  destruct a as [| x | m | s | |], b as [| y | n | t | |]; try discriminate;
    destruct c as [| z | p | u | |]; simpl; try discriminate; intros A B; key_cases.
Qed.

(** Reading a dict after a store. *)
Lemma dict_get_store (d : list (pyval * pyval)) (k x q : pyval) :
  hashable_keys d ->
  hashable k = true ->
  dict_get (dict_store d k x) q = if py_eq k q then Some x else dict_get d q.
Proof.
  intros Hd Hk. induction Hd as [| [k' y] d Hk' Hd IH]; simpl.
  - reflexivity.
  - simpl in Hk'. destruct (py_eq k' k) eqn:E; simpl.
    + destruct (py_eq k' q) eqn:Q.
      * rewrite (py_eq_trans k k' q); auto using py_eq_sym.
      * destruct (py_eq k q) eqn:K; [| reflexivity].
        rewrite (py_eq_trans k' k q) in Q; auto; discriminate.
    + destruct (py_eq k' q) eqn:Q.
      * destruct (py_eq k q) eqn:K; [| reflexivity].
        rewrite (py_eq_trans k' q k) in E; auto using py_eq_sym.
        -- discriminate.
        -- destruct k' as [| | | | |], q as [| | | | |]; simpl in *; congruence.
      * exact IH.
Qed.

Lemma dict_store_hashable (d : list (pyval * pyval)) (k x : pyval) :
  hashable_keys d -> hashable k = true -> hashable_keys (dict_store d k x).
Proof.
  intros Hd Hk. induction Hd as [| [k' y] d Hk' Hd IH]; simpl.
  - constructor; auto.
  - destruct (py_eq k' k); constructor; auto.
Qed.

Lemma dict_get_app (d : list (pyval * pyval)) (k x q : pyval) :
  dict_get (d ++ [(k, x)])%list q
  = match dict_get d q with
    | Some y => Some y
    | None => if py_eq k q then Some x else None
    end.
Proof.
  induction d as [| [k' y] d IH]; simpl.
  - reflexivity.
  - destruct (py_eq k' q); [reflexivity | exact IH].
Qed.

(** The comprehension stores the projects one after the other. *)
Lemma comprehension_stores (runs : list pyval) :
  forall (projects acc : list (pyval * pyval)),
    Forall2 is_project runs projects ->
    id_name_comprehension acc runs
    = Return (fold_left (fun d e => dict_store d (fst e) (snd e)) projects acc).
Proof.
  induction runs as [| p runs IH]; intros projects acc F; inversion F; subst; simpl.
  - reflexivity.
  - match goal with H : is_project _ _ |- _ => destruct H as (Hid & Hname & Hk) end.
    rewrite Hid, Hname. unfold dict_setitem. rewrite Hk. apply IH. assumption.
Qed.

(** Reading the dict that the stores build: the last project with the id
    wins, and the keys that were there before stay. *)
Lemma fold_store_get (projects : list (pyval * pyval)) :
  forall (acc : list (pyval * pyval)) (q : pyval),
    hashable_keys acc ->
    hashable_keys projects ->
    dict_get (fold_left (fun d e => dict_store d (fst e) (snd e)) projects acc) q
    = match dict_get (rev projects) q with
      | Some x => Some x
      | None => dict_get acc q
      end.
Proof.
  induction projects as [| [k x] projects IH]; intros acc q Ha Hp; simpl.
  - reflexivity.
  - inversion Hp as [| e l Hk Hl]; subst. simpl in Hk.
    rewrite IH by auto using dict_store_hashable.
    rewrite dict_get_app, dict_get_store by assumption.
    destruct (dict_get (rev projects) q); [reflexivity |].
    destruct (py_eq k q); reflexivity.
Qed.

Lemma projects_hashable (runs : list pyval) (projects : list (pyval * pyval)) :
  Forall2 is_project runs projects -> hashable_keys projects.
Proof.
  induction 1 as [| p e runs projects H F IH]; constructor; [apply H | exact IH].
Qed.

Ltac bool_to_prop :=
  repeat match goal with
         | H : (_ =? _) = true |- _ => apply Z.eqb_eq in H
         | H : (_ =? _) = false |- _ => apply Z.eqb_neq in H
         | H : (_ <? _) = true |- _ => apply Z.ltb_lt in H
         | H : (_ <? _) = false |- _ => apply Z.ltb_ge in H
         | H : (_ <=? _) = true |- _ => apply Z.leb_le in H
         | H : (_ <=? _) = false |- _ => apply Z.leb_gt in H
         | H : negb _ = true |- _ => apply negb_true_iff in H
         | H : negb _ = false |- _ => apply negb_false_iff in H
         end.

(** After case analysis of a call whose log is known: a call that sent
    nothing cannot have grown the log, and a call that sent a request sent
    the logged one. *)
Ltac settle_log :=
  try (exfalso; eapply log_grows; eauto; fail);
  try (match goal with
       | H : (_ ++ [_])%list = (_ ++ [_])%list |- _ => apply log_last in H; subst
       end).

(** Uses the hypotheses that the dates pass their checks. *)
Ltac use_dates :=
  repeat match goal with
         | H : date_passes _ ?d, T : truthy ?d = true |- _ =>
             destruct (H T) as [? ?]; clear H
         end.

(** Names the call of the goal, so that case analysis can run on it. *)
Ltac name_call :=
  match goal with
  | |- ?c = _ \/ _ => let E := fresh "E" in destruct c as [? ?] eqn:E; revert E
  | |- exists _, ?c = _ => let E := fresh "E" in destruct c as [? ?] eqn:E; revert E
  end.

Ltac unfold_body :=
  unfold invoke, get_available_timezones, get_my_projects, get_forecasts_info,
    get_selected_forecast, get_backtests_info, get_selected_backtests,
    call, bind, try_except, eval, ok, return_, raise, requests_get, run_error in *.

(** [int] raises a [ValueError] exactly on the strings that are not
    integer literals, or have more digits than the limit. *)
Lemma py_int_ValueError_iff (v : pyval) :
  (exists e, py_int v = Raise e /\ is_ValueError e = true)
  <-> (exists s, v = PyStr s
                 /\ (parse_int s = None \/ int_max_str_digits < counted_digits s)).
Proof.
  split.
  - intros [e [H E]]. destruct v as [| b | n | s | l | d]; cbn [py_int] in H;
      try discriminate.
    + injection H as <-. discriminate E.
    + exists s. split; [reflexivity |].
      destruct (int_max_str_digits <? counted_digits s) eqn:L.
      * right. apply Z.ltb_lt. exact L.
      * destruct (parse_int s) eqn:P; [discriminate | left; reflexivity].
    + injection H as <-. discriminate E.
    + injection H as <-. discriminate E.
  - intros [s [-> [P | L]]]; cbn [py_int].
    + destruct (int_max_str_digits <? counted_digits s);
        [| rewrite P]; eexists; split; reflexivity.
    + apply Z.ltb_lt in L. rewrite L. eexists; split; reflexivity.
Qed.

(** [int] raises another exception, a [TypeError], exactly on [None],
    lists and dicts. *)
Lemma py_int_other_error_iff (v : pyval) :
  (exists e, py_int v = Raise e /\ is_ValueError e = false)
  <-> (v = PyNone \/ (exists l, v = PyList l) \/ (exists d, v = PyDict d)).
Proof.
  split.
  - intros [e [H E]]. destruct v as [| b | n | s | l | d]; cbn [py_int] in H;
      try discriminate; eauto.
    destruct (int_max_str_digits <? counted_digits s);
      [| destruct (parse_int s); [discriminate |]]; injection H as <-; discriminate E.
  - intros [-> | [[l ->] | [d ->]]]; eexists; split; reflexivity.
Qed.

Section Properties.

Variable env : option string.
Variable net : request -> outcome response.
Variable to_datetime : pyval -> string -> outcome pyval.

(** C1 (amended).  In each of the three operations that check [run]
    (get_selected_forecast, get_backtests_info, get_selected_backtests),
    a [run] on which [int] raises a [ValueError] (a string that is not an
    integer literal) makes the call return the error string of [run], and
    no request is sent. *)
Theorem run_rejected_without_request :
  forall (i : invocation) (run : pyval) (e : exn) (log : list request),
    validates_run i = true ->
    run_of i = Some run ->
    py_int run = Raise e ->
    is_ValueError e = true ->
    invoke env net to_datetime i log = (Return run_error, log).
Proof.
  intros i run e log V R H E.
  destruct i; simpl in V, R; try discriminate; inversion R; subst;
    unfold_body; rewrite H, E; reflexivity.
Qed.

(** C10 (amended).  In each of the three operations that check [run],
    a [run] on which [int] raises an exception that is not a
    [ValueError] ([None], a list) makes the call raise that exception,
    and no request is sent. *)
Theorem run_type_error_propagates :
  forall (i : invocation) (run : pyval) (e : exn) (log : list request),
    validates_run i = true ->
    run_of i = Some run ->
    py_int run = Raise e ->
    is_ValueError e = false ->
    invoke env net to_datetime i log = (Raise e, log).
Proof.
  intros i run e log V R H E.
  destruct i; simpl in V, R; try discriminate; inversion R; subst;
    unfold_body; rewrite H, E; reflexivity.
Qed.


(** C7 (amended).  [get_my_projects]: a flag that is not a boolean raises
    the validation error before any request; with the flag [True], a 200
    response whose body has ["control"] equal to ["Success"] and a list
    ["runs"] of project records gives the dict that maps each project id
    to the name of the (last) project with that id; with the flag
    [False], or a ["control"] that is there and is not ["Success"], a 200
    response gives its body unchanged. *)
Theorem my_projects_contract :
  (forall (flag : pyval) (log : list request),
      isinstance_bool flag = false ->
      get_my_projects env net flag log = (Raise flag_error, log))
  /\ (forall (log : list request) (resp : response) (body : pyval)
             (runs : list pyval) (projects : list (pyval * pyval)),
      net (projects_request env) = Return resp ->
      status_code resp = 200 ->
      json resp = Return body ->
      py_getitem body "control" = Return (PyStr "Success") ->
      py_getitem body "runs" = Return (PyList runs) ->
      Forall2 is_project runs projects ->
      exists mapping,
        get_my_projects env net (PyBool true) log
        = (Return (PyDict mapping), (log ++ [projects_request env])%list)
        /\ forall q, dict_get mapping q = dict_get (rev projects) q)
  /\ (forall (log : list request) (resp : response) (body : pyval) (flag : bool),
      net (projects_request env) = Return resp ->
      status_code resp = 200 ->
      json resp = Return body ->
      (flag = false
       \/ exists control,
           py_getitem body "control" = Return control
           /\ py_eq control (PyStr "Success") = false) ->
      get_my_projects env net (PyBool flag) log
      = (Return body, (log ++ [projects_request env])%list)).
Proof.
  split; [| split].
  - intros flag log B. unfold_body. rewrite B. reflexivity.
  - intros log resp body runs projects N S J C R F.
    unfold projects_request in *. unfold_body. simpl in *.
    rewrite N, S, J. simpl. rewrite C. simpl. rewrite R. simpl.
    rewrite (comprehension_stores runs projects [] F).
    eexists; split; [reflexivity |].
    intros q. rewrite fold_store_get.
    + simpl. destruct (dict_get (rev projects) q); reflexivity.
    + constructor.
    + exact (projects_hashable runs projects F).
  - intros log resp body flag N S J H.
    unfold projects_request in *. unfold_body. simpl in *.
    rewrite N, S. simpl.
    destruct H as [-> | [control [C E]]].
    + simpl. rewrite J. reflexivity.
    + destruct flag; simpl; rewrite J; [| reflexivity].
      rewrite C, E. reflexivity.
Qed.

(** Whenever an operation sends a request, its URL is the one of the
    rule of the specification. *)
Lemma request_url_follows_rule :
  forall (i : invocation) (o : outcome pyval) (log : list request) (r : request),
    invoke env net to_datetime i log = (o, (log ++ [r])%list) ->
    req_url r = spec_url i.
Proof.
  intros i o log r.
  destruct i; unfold_body; simpl.
  all: repeat case_head.
  all: intros H; injection H as H1 H2; subst.
  all: settle_log.
  all: unfold url_template, date_param, ahead_param; simpl; use_cases; simpl.
  all: repeat rewrite str_app_assoc; simpl; repeat rewrite str_app_nil_r.
  all: congruence.
Qed.

(** C6 (amended).  Whenever an operation sends a request, what it
    returns is decided by the answer of the network: on a status 200
    whose body parses, the body unchanged (in [get_my_projects] with the
    flag [True], when the body's ["control"] is not ["Success"]; the
    other case is the one of C7); on another status, the
    status-code message; on an exception of the transport, or of the
    parsing of the body, the exception message. *)
Theorem response_classification :
  forall (i : invocation) (o : outcome pyval) (log : list request) (r : request),
    invoke env net to_datetime i log = (o, (log ++ [r])%list) ->
    (forall resp body,
        net r = Return resp -> status_code resp = 200 -> json resp = Return body ->
        (i = MyProjects (PyBool true) ->
         exists control,
           py_getitem body "control" = Return control
           /\ py_eq control (PyStr "Success") = false) ->
        o = Return body)
    /\ (forall resp,
        net r = Return resp -> status_code resp <> 200 ->
        o = Return (PyStr ("Error: Received response with status code "
                             ++ str_of_Z (status_code resp))))
    /\ (forall e,
        net r = Raise e ->
        o = Return (PyStr ("Error: An exception occurred - " ++ exn_str e)))
    /\ (forall resp e,
        net r = Return resp -> status_code resp = 200 -> json resp = Raise e ->
        o = Return (PyStr ("Error: An exception occurred - " ++ exn_str e))).
Proof.
  intros i o log r.
  destruct i as [| flag | | | |]; [| destruct flag as [| [|] | | | |] | ..].
  all: unfold_body; simpl.
  all: repeat case_head.
  all: intros H; injection H as H1 H2; subst.
  all: settle_log.
  all: bool_to_prop.
  all: repeat split; intros.
  all: try match goal with
           | H : ?i = ?i -> exists _, _ |- _ => destruct (H eq_refl) as [? [? ?]]
           end.
  all: congruence.
Qed.

(** C5 (amended).  Whenever an operation sends a request, its URL is the
    template followed by [&init=], [&end=], [&init_ahead=] and
    [&end_ahead=], in this order, each for an argument that is supplied
    and truthy (a zero offset and an empty date are left out); and the
    call with run 42 and the offsets 10 and 30 sends a URL that ends with
    [&init_ahead=10&end_ahead=30]. *)
Theorem url_construction :
  (forall (i : invocation) (o : outcome pyval) (log : list request) (r : request),
      invoke env net to_datetime i log = (o, (log ++ [r])%list) ->
      req_url r = spec_url i)
  /\ (forall (log : list request),
      exists o,
        get_selected_backtests env net to_datetime
          (PyInt 42) PyNone PyNone (PyInt 10) (PyInt 30) UTC log
        = (o, (log ++ [mkRequest
                         ("https://api.sirocco.energy/national/selectedbacktests/v1.1/"
                            ++ "?run=42&timezone=UTC" ++ "&init_ahead=10&end_ahead=30")
                         [("Authorization", API_TOKEN env)]])%list)).
Proof.
  split.
  - exact request_url_follows_rule.
  - intros log. name_call. unfold_body; simpl.
    repeat case_head.
    all: intros E; injection E as E1 E2; subst.
    all: eexists; reflexivity.
Qed.

(** C8 (amended).  For every operation that takes a [run] and every
    accepted [run], the text put after [?run=] in the URL is [str(run)],
    the input as it was given: the decimal digits of an integer, and a
    string unchanged, with its leading zeros and white space. *)
Theorem run_text_in_url :
  forall (i : invocation) (run : pyval) (n : Z) (o : outcome pyval)
         (log : list request) (r : request),
    run_of i = Some run ->
    py_int run = Return n ->
    invoke env net to_datetime i log = (o, (log ++ [r])%list) ->
    exists suffix,
      req_url r
      = "https://api.sirocco.energy/national/" ++ endpoint_of i ++ "/" ++ API_VERSION
          ++ "/?run=" ++ py_str run ++ "&timezone=" ++ py_str (timezone_of i) ++ suffix.
Proof.
  intros i run n o log r R _ H.
  rewrite (request_url_follows_rule i o log r H).
  destruct i; simpl in R; try discriminate; injection R as <-;
    unfold spec_url, url_template; simpl;
    repeat rewrite str_app_assoc; simpl; repeat rewrite str_app_assoc.
  - exists "". rewrite str_app_nil_r. reflexivity.
  - eexists; reflexivity.
  - eexists; reflexivity.
  - eexists; reflexivity.
Qed.


(** What C2 says does hold in [get_selected_backtests], whose check under
    [if init_date:] parses [init_date]: a truthy date on which the parser
    raises a [ValueError] gives the error string of its own parameter,
    and no request is sent. *)
Lemma selected_backtests_checks_each_date :
  forall (run init_date end_date init_ahead end_ahead timezone : pyval) (n : Z)
         (e : exn) (log : list request),
    py_int run = Return n ->
    is_ValueError e = true ->
    (truthy init_date = true ->
     to_datetime init_date date_format = Raise e ->
     get_selected_backtests env net to_datetime run init_date end_date
       init_ahead end_ahead timezone log
     = (Return init_date_error, log))
    /\ (date_passes to_datetime init_date ->
        truthy end_date = true ->
        to_datetime end_date date_format = Raise e ->
        get_selected_backtests env net to_datetime run init_date end_date
          init_ahead end_ahead timezone log
        = (Return end_date_error, log)).
Proof.
  intros run init_date end_date init_ahead end_ahead timezone n e log R V. split.
  - intros T P. unfold_body; simpl. rewrite R, T, P; simpl. rewrite V. reflexivity.
  - intros Di T P. unfold_body; simpl. rewrite R, T, P; simpl. rewrite V.
    destruct (truthy init_date) eqn:Ti; [| reflexivity].
    destruct (Di Ti) as [v Hv]. rewrite Hv. reflexivity.
Qed.




End Properties.

(** ** Further properties *)

(** *** [int] after [str] *)

Ltac eval_digit :=
  match goal with
  | |- context [10 * _ + ?k] => let k' := eval vm_compute in k in change k with k'
  | H : context [10 * _ + ?k] |- _ => let k' := eval vm_compute in k in change k with k' in H
  end.

Lemma scan_digit (c : ascii) (k acc : Z) (rest : string) :
  digit_value c = Some k ->
  scan_digits acc (String c rest) = scan_digits (10 * acc + k) rest.
Proof.
  intros H. cbn [scan_digits]. rewrite H. reflexivity.
Qed.

Lemma scan_uint_acc (d : Decimal.uint) :
  forall acc : positive,
    scan_digits (Z.pos acc) (NilEmpty.string_of_uint d)
    = Some (Z.pos (Pos.of_uint_acc d acc), "").
Proof.
  induction d; intros acc; cbn [NilEmpty.string_of_uint Pos.of_uint_acc];
    [reflexivity | ..].
  all: erewrite scan_digit by reflexivity; eval_digit.
  all: match goal with
       | |- scan_digits ?x _ = Some (Z.pos (Pos.of_uint_acc _ ?p), _) =>
           replace x with (Z.pos p) by lia
       end; apply IHd.
Qed.

Lemma scan_uint (d : Decimal.uint) :
  scan_digits 0 (NilEmpty.string_of_uint d) = Some (Z.of_N (Pos.of_uint d), "").
Proof.
  induction d; cbn [NilEmpty.string_of_uint Pos.of_uint]; [reflexivity | ..].
  all: erewrite scan_digit by reflexivity; eval_digit; simpl (10 * 0 + _).
  - exact IHd.
  - apply (scan_uint_acc d 1).
  - apply (scan_uint_acc d 2).
  - apply (scan_uint_acc d 3).
  - apply (scan_uint_acc d 4).
  - apply (scan_uint_acc d 5).
  - apply (scan_uint_acc d 6).
  - apply (scan_uint_acc d 7).
  - apply (scan_uint_acc d 8).
  - apply (scan_uint_acc d 9).
Qed.

(** [parse_int] on a string that starts with a digit. *)
Lemma parse_digits (c : ascii) (k : Z) (rest : string) :
  digit_value c = Some k ->
  parse_int (String c rest)
  = match scan_digits k rest with
    | Some (n, tail) =>
        match skip_spaces tail with
        | EmptyString => Some n
        | String _ _ => None
        end
    | None => None
    end.
Proof.
  intros H. unfold parse_int.
  assert (S : is_space c = false).
  { destruct c as [[|] [|] [|] [|] [|] [|] [|] [|]]; try reflexivity; discriminate H. }
  assert (P : Ascii.eqb c "+" = false).
  { destruct c as [[|] [|] [|] [|] [|] [|] [|] [|]]; try reflexivity; discriminate H. }
  assert (M : Ascii.eqb c "-" = false).
  { destruct c as [[|] [|] [|] [|] [|] [|] [|] [|]]; try reflexivity; discriminate H. }
  cbn [skip_spaces]. rewrite S, P, M, H.
  destruct (scan_digits k rest) as [[n tail] |]; reflexivity.
Qed.

(** [parse_int] on a minus sign and a string that starts with a digit. *)
Lemma parse_minus_digits (c : ascii) (k : Z) (rest : string) :
  digit_value c = Some k ->
  parse_int (String "-" (String c rest))
  = match scan_digits k rest with
    | Some (n, tail) =>
        match skip_spaces tail with
        | EmptyString => Some (- n)
        | String _ _ => None
        end
    | None => None
    end.
Proof.
  intros H. unfold parse_int. cbn [skip_spaces].
  change (is_space "-") with false. cbv iota.
  change (Ascii.eqb "-" "+") with false. change (Ascii.eqb "-" "-") with true.
  cbv iota beta. rewrite H.
  destruct (scan_digits k rest) as [[n tail] |]; reflexivity.
Qed.

Lemma parse_uint (d : Decimal.uint) :
  d <> Decimal.Nil ->
  parse_int (NilEmpty.string_of_uint d) = Some (Z.of_N (Pos.of_uint d))
  /\ parse_int (String "-" (NilEmpty.string_of_uint d)) = Some (- Z.of_N (Pos.of_uint d)).
Proof.
  intros H. pose proof (scan_uint d) as S.
  destruct d; [contradiction | ..]; cbn [NilEmpty.string_of_uint] in *.
  all: erewrite scan_digit in S by reflexivity; eval_digit; simpl (10 * 0 + _) in S.
  all: erewrite parse_digits by reflexivity.
  all: erewrite parse_minus_digits by reflexivity.
  all: repeat match goal with
         | |- context [scan_digits ?k _] =>
             lazymatch k with
             | Z.sub _ _ => let k' := eval vm_compute in k in change k with k'
             end
         end.
  all: rewrite S; split; reflexivity.
Qed.

Lemma string_of_nonnil_uint (d : Decimal.uint) :
  d <> Decimal.Nil -> NilZero.string_of_uint d = NilEmpty.string_of_uint d.
Proof.
  destruct d; [contradiction | ..]; reflexivity.
Qed.

(** [int(str(n)) == n]. *)
Lemma parse_int_str_of_Z (n : Z) : parse_int (str_of_Z n) = Some n.
Proof.
  unfold str_of_Z. destruct n as [| p | p].
  - reflexivity.
  - pose proof (Unsigned.to_uint_nonnil p) as N.
    cbn [Z.to_int NilZero.string_of_int].
    rewrite (string_of_nonnil_uint _ N), (proj1 (parse_uint _ N)), Unsigned.of_to.
    reflexivity.
  - pose proof (Unsigned.to_uint_nonnil p) as N.
    cbn [Z.to_int NilZero.string_of_int].
    rewrite (string_of_nonnil_uint _ N), (proj2 (parse_uint _ N)), Unsigned.of_to.
    reflexivity.
Qed.

(** *** The digits that [int] counts *)

Lemma run_digit (c : ascii) (k : Z) (rest : string) :
  digit_value c = Some k -> run_digits (String c rest) = 1 + run_digits rest.
Proof.
  intros H. cbn [run_digits]. rewrite H. reflexivity.
Qed.

(** In the text of a number every character is a digit. *)
Lemma run_digits_uint (d : Decimal.uint) :
  run_digits (NilEmpty.string_of_uint d)
  = Z.of_nat (String.length (NilEmpty.string_of_uint d)).
Proof.
  induction d; cbn [NilEmpty.string_of_uint String.length]; [reflexivity | ..].
  all: erewrite run_digit by reflexivity; rewrite IHd, Nat2Z.inj_succ; lia.
Qed.

(** [counted_digits] on a string that starts with a digit. *)
Lemma counted_from_digit (c : ascii) (k : Z) (rest : string) :
  digit_value c = Some k ->
  counted_digits (String c rest)
  = match scan_digits k rest with
    | Some _ => run_digits (String c rest)
    | None => 0
    end.
Proof.
  intros H. unfold counted_digits.
  assert (S : is_space c = false).
  { destruct c as [[|] [|] [|] [|] [|] [|] [|] [|]]; try reflexivity; discriminate H. }
  assert (P : Ascii.eqb c "+" = false).
  { destruct c as [[|] [|] [|] [|] [|] [|] [|] [|]]; try reflexivity; discriminate H. }
  assert (M : Ascii.eqb c "-" = false).
  { destruct c as [[|] [|] [|] [|] [|] [|] [|] [|]]; try reflexivity; discriminate H. }
  cbn [skip_spaces]. rewrite S, P, M. cbn [orb]. rewrite H. reflexivity.
Qed.

(** [counted_digits] on a minus sign and a string that starts with a
    digit. *)
Lemma counted_from_minus (c : ascii) (k : Z) (rest : string) :
  digit_value c = Some k ->
  counted_digits (String "-" (String c rest))
  = match scan_digits k rest with
    | Some _ => run_digits (String c rest)
    | None => 0
    end.
Proof.
  intros H. unfold counted_digits. cbn [skip_spaces].
  change (is_space "-") with false. cbv iota.
  change (Ascii.eqb "-" "+") with false. change (Ascii.eqb "-" "-") with true.
  cbn [orb]. cbv iota beta. rewrite H. reflexivity.
Qed.

Lemma counted_uint (d : Decimal.uint) :
  d <> Decimal.Nil ->
  counted_digits (NilEmpty.string_of_uint d)
  = Z.of_nat (String.length (NilEmpty.string_of_uint d))
  /\ counted_digits (String "-" (NilEmpty.string_of_uint d))
     = Z.of_nat (String.length (NilEmpty.string_of_uint d)).
Proof.
  intros H. pose proof (scan_uint d) as S. pose proof (run_digits_uint d) as R.
  destruct d; [contradiction | ..]; cbn [NilEmpty.string_of_uint] in *.
  all: erewrite scan_digit in S by reflexivity; eval_digit; simpl (10 * 0 + _) in S.
  all: erewrite counted_from_digit by reflexivity.
  all: erewrite counted_from_minus by reflexivity.
  all: repeat match goal with
         | |- context [scan_digits ?k _] =>
             lazymatch k with
             | Z.sub _ _ => let k' := eval vm_compute in k in change k with k'
             end
         end.
  all: rewrite S; split; exact R.
Qed.

(** On the text of [n], [int] counts the digits of [n]. *)
Lemma counted_digits_str_of_Z (n : Z) : counted_digits (str_of_Z n) = decimal_digits n.
Proof.
  unfold decimal_digits, str_of_Z. destruct n as [| p | p].
  - reflexivity.
  - pose proof (Unsigned.to_uint_nonnil p) as N.
    cbn [Z.abs Z.to_int NilZero.string_of_int].
    rewrite (string_of_nonnil_uint _ N). exact (proj1 (counted_uint _ N)).
  - pose proof (Unsigned.to_uint_nonnil p) as N.
    cbn [Z.abs Z.to_int NilZero.string_of_int].
    rewrite (string_of_nonnil_uint _ N). exact (proj2 (counted_uint _ N)).
Qed.

(** [int(str(n)) == n], for an [n] within the limit. *)
Lemma py_int_str_of_Z (n : Z) :
  decimal_digits n <= int_max_str_digits -> py_int (PyStr (str_of_Z n)) = Return n.
Proof.
  intros H. cbn [py_int]. rewrite counted_digits_str_of_Z.
  destruct (int_max_str_digits <? decimal_digits n) eqn:L.
  - apply Z.ltb_lt in L. lia.
  - rewrite parse_int_str_of_Z. reflexivity.
Qed.

(** *** Dicts with distinct keys *)

Lemma dict_store_new (d : list (pyval * pyval)) (k x : pyval) :
  Forall (fun e => py_eq (fst e) k = false) d ->
  dict_store d k x = (d ++ [(k, x)])%list.
Proof.
  induction 1 as [| [k' y] d H F IH]; simpl.
  - reflexivity.
  - simpl in H. rewrite H, IH. reflexivity.
Qed.

Lemma fold_store_distinct (projects : list (pyval * pyval)) :
  forall acc : list (pyval * pyval),
    distinct_ids (acc ++ projects)%list ->
    fold_left (fun d e => dict_store d (fst e) (snd e)) projects acc
    = (acc ++ projects)%list.
Proof.
  induction projects as [| [k x] projects IH]; intros acc D; simpl.
  - symmetry. apply app_nil_r.
  - rewrite dict_store_new.
    + rewrite IH; rewrite <- app_assoc; [reflexivity | exact D].
    + clear IH. induction acc as [| a acc IHa]; [constructor |].
      simpl in D. inversion D as [| a' l Ha Hl]; subst.
      constructor.
      * rewrite Forall_forall in Ha. apply (Ha (k, x)).
        apply in_or_app. right. left. reflexivity.
      * apply IHa. exact Hl.
Qed.

(** The comprehension stops at the first record without an id or a name. *)
Lemma comprehension_fails (good : list pyval) :
  forall (pairs acc : list (pyval * pyval)) (p : pyval) (rest : list pyval) (e : exn),
    Forall2 is_project good pairs ->
    (py_getitem p "id" = Raise e
     \/ exists k, py_getitem p "id" = Return k /\ py_getitem p "name" = Raise e) ->
    id_name_comprehension acc (good ++ p :: rest)%list = Raise e.
Proof.
  induction good as [| g good IH]; intros pairs acc p rest e F B; inversion F; subst; simpl.
  - destruct B as [B | [k [B1 B2]]].
    + rewrite B. reflexivity.
    + rewrite B1, B2. reflexivity.
  - match goal with H : is_project _ _ |- _ => destruct H as (Hid & Hname & Hk) end.
    rewrite Hid, Hname. unfold dict_setitem. rewrite Hk. eapply IH; eassumption.
Qed.

(** *** Digits of the clock *)

Lemma digit_char_is_digit (n : Z) : is_digit (digit_char n) = true.
Proof.
  unfold digit_char.
  assert (H : 0 <= n mod 10 < 10) by (apply Z.mod_pos_bound; lia).
  assert (C : n mod 10 = 0 \/ n mod 10 = 1 \/ n mod 10 = 2 \/ n mod 10 = 3 \/ n mod 10 = 4
              \/ n mod 10 = 5 \/ n mod 10 = 6 \/ n mod 10 = 7 \/ n mod 10 = 8
              \/ n mod 10 = 9) by lia.
  repeat (destruct C as [C | C]; [rewrite C; reflexivity |]).
  rewrite C; reflexivity.
Qed.

Lemma digit_char_inj (a b : Z) : digit_char a = digit_char b -> a mod 10 = b mod 10.
Proof.
  unfold digit_char. intros H.
  assert (Ha : 0 <= a mod 10 < 10) by (apply Z.mod_pos_bound; lia).
  assert (Hb : 0 <= b mod 10 < 10) by (apply Z.mod_pos_bound; lia).
  apply (f_equal N_of_ascii) in H.
  rewrite !N_ascii_embedding in H by lia. lia.
Qed.

Lemma two_digits_inj (a b : Z) :
  0 <= a < 100 -> 0 <= b < 100 -> two_digits a = two_digits b -> a = b.
Proof.
  unfold two_digits. intros Ha Hb H. injection H as H1 H2.
  apply digit_char_inj in H1, H2.
  Z.div_mod_to_equations. lia.
Qed.

Lemma four_digits_inj (a b : Z) :
  0 <= a < 10000 -> 0 <= b < 10000 -> four_digits a = four_digits b -> a = b.
Proof.
  unfold four_digits, two_digits. intros Ha Hb H. injection H as H1 H2 H3 H4.
  apply digit_char_inj in H1, H2, H3, H4.
  Z.div_mod_to_equations. lia.
Qed.

(** X16.  The string of [get_current_utc_datetime] has 19 characters, of
    the shape [dddd/dd/dd dd:dd:dd]; it has not the shape of the format
    that the date checks of the request functions name, which has
    dashes. *)
Theorem utc_datetime_shape :
  forall now : datetime,
    valid_datetime now ->
    has_shape "dddd/dd/dd dd:dd:dd" (get_current_utc_datetime now) = true
    /\ String.length (get_current_utc_datetime now) = 19%nat
    /\ has_shape "dddd-dd-dd dd:dd:dd" (get_current_utc_datetime now) = false.
Proof.
  intros now _. unfold get_current_utc_datetime.
  cbn [strftime directive Ascii.eqb Bool.eqb four_digits two_digits append].
  cbn [has_shape Ascii.eqb Bool.eqb String.length].
  rewrite !digit_char_is_digit. repeat split; reflexivity.
Qed.

(** X17.  [get_current_utc_datetime] gives different strings at different
    seconds: two clock readings with the same string are the same. *)
Theorem utc_datetime_injective :
  forall a b : datetime,
    valid_datetime a -> valid_datetime b ->
    get_current_utc_datetime a = get_current_utc_datetime b -> a = b.
Proof.
  intros [ya ma da ha mia sa] [yb mb db hb mib sb] Va Vb.
  unfold valid_datetime in *. simpl in Va, Vb.
  unfold get_current_utc_datetime.
  cbn [strftime directive Ascii.eqb Bool.eqb append year month day hour minute second].
  intros H.
  assert (Y : four_digits ya = four_digits yb)
    by (unfold four_digits, two_digits in *; cbn [append] in H; congruence).
  assert (Mo : two_digits ma = two_digits mb)
    by (unfold four_digits, two_digits in *; cbn [append] in H; congruence).
  assert (D : two_digits da = two_digits db)
    by (unfold four_digits, two_digits in *; cbn [append] in H; congruence).
  assert (Ho : two_digits ha = two_digits hb)
    by (unfold four_digits, two_digits in *; cbn [append] in H; congruence).
  assert (Mi : two_digits mia = two_digits mib)
    by (unfold four_digits, two_digits in *; cbn [append] in H; congruence).
  assert (S : two_digits sa = two_digits sb)
    by (unfold four_digits, two_digits in *; cbn [append] in H; congruence).
  apply four_digits_inj in Y; try lia.
  apply two_digits_inj in Mo, D, Ho, Mi, S; try lia.
  congruence.
Qed.

Section FurtherProperties.

Variable env : option string.
Variable net : request -> outcome response.
Variable to_datetime : pyval -> string -> outcome pyval.

(** How a call can end: without a request, with an error string or with
    an exception (which, when the arguments are values that can be written
    into the URL, is one of the two errors of the module or no
    [ValueError]); or with one request, its headers, and a value. *)
Lemma invoke_outcomes :
  forall (i : invocation) (o : outcome pyval) (log log' : list request),
    invoke env net to_datetime i log = (o, log') ->
    (log' = log
     /\ ((exists msg, o = Return (PyStr ("Error: " ++ msg)))
         \/ (exists e, o = Raise e
                       /\ (arguments_format i = true ->
                           e = flag_error \/ e = order_error \/ is_ValueError e = false))))
    \/ (exists r v,
           log' = (log ++ [r])%list /\ o = Return v
           /\ req_headers r = expected_headers env i).
Proof.
  intros i o log log'.
  destruct i; unfold_body; simpl.
  all: repeat case_head.
  all: intros H; injection H as H1 H2; subst.
  all: try (right; eexists; eexists; split; [reflexivity | split; reflexivity]).
  all: left; split; [reflexivity |].
  all: try (left; eexists; reflexivity).
  all: right; eexists; split; [reflexivity | intros _].
  all: try (left; reflexivity).
  all: try (right; left; reflexivity).
  all: right; right; try assumption; try reflexivity; congruence.
Qed.

(** X1.  A call sends at most one request: it leaves the log as it was or
    adds one request to its end.  There is no retry. *)
Theorem at_most_one_request :
  forall (i : invocation) (o : outcome pyval) (log log' : list request),
    invoke env net to_datetime i log = (o, log') ->
    log' = log \/ exists r, log' = (log ++ [r])%list.
Proof.
  intros i o log log' H.
  destruct (invoke_outcomes i o log log' H) as [[-> _] | (r & v & -> & _)];
    [left; reflexivity | right; exists r; reflexivity].
Qed.

(** X2.  A call that raises has sent no request: once the request is
    sent, every failure comes back as a value.  When the arguments are
    values that can be written into the URL ([None], booleans, strings,
    integers within the limit of digits), what is raised is the error of
    the flag, the error of the order of the offsets, or an exception that
    is no [ValueError]. *)
Theorem raise_sends_nothing :
  forall (i : invocation) (e : exn) (log log' : list request),
    invoke env net to_datetime i log = (Raise e, log') ->
    log' = log
    /\ (arguments_format i = true ->
        e = flag_error \/ e = order_error \/ is_ValueError e = false).
Proof.
  intros i e log log' H.
  destruct (invoke_outcomes i _ log log' H)
    as [[-> [[msg M] | (e' & E & D)]] | (r & v & _ & V & _)];
    try discriminate.
  injection E as <-. split; [reflexivity | exact D].
Qed.

(** X3.  A call that returns without having sent a request returns a
    string that starts with ["Error: "]. *)
Theorem return_without_request_is_error_string :
  forall (i : invocation) (v : pyval) (log : list request),
    invoke env net to_datetime i log = (Return v, log) ->
    exists msg, v = PyStr ("Error: " ++ msg).
Proof.
  intros i v log H.
  destruct (invoke_outcomes i _ log log H)
    as [[_ [[msg M] | (e' & E & D)]] | (r & w & L & _)];
    try discriminate.
  - injection M as ->. exists msg. reflexivity.
  - symmetry in L. exfalso. exact (log_grows _ log r L).
Qed.


(** X5.  With arguments that can be written into the URL, what
    [get_selected_backtests] raises is the error of the order of the
    offsets, or what [int] raised on [run] or on an offset, or what the
    date parser raised: the comparison of the offsets itself never fails,
    because both are integers when it is made. *)
Theorem selected_backtests_raise_sources :
  forall (run init_date end_date init_ahead end_ahead timezone : pyval) (e : exn)
         (log log' : list request),
    arguments_format
      (SelectedBacktests run init_date end_date init_ahead end_ahead timezone) = true ->
    get_selected_backtests env net to_datetime run init_date end_date
      init_ahead end_ahead timezone log = (Raise e, log') ->
    e = order_error
    \/ py_int run = Raise e
    \/ to_datetime init_date date_format = Raise e
    \/ to_datetime end_date date_format = Raise e
    \/ py_int init_ahead = Raise e
    \/ py_int end_ahead = Raise e.
Proof.
  intros run init_date end_date init_ahead end_ahead timezone e log log' _.
  unfold_body; simpl.
  repeat case_head.
  all: intros H; try discriminate H; injection H as H1 H2; subst.
  all: try (left; reflexivity).
  all: try congruence.
  all: auto 7.
Qed.

(** X6.  [get_available_timezones], [get_my_projects] with a boolean
    flag, and [get_forecasts_info] with a [run] and a [timezone] that can
    be written into the URL ([None], booleans, strings, integers within
    the limit of digits: there is no check of them) never raise and always
    send their request: whatever the network does, they return a value. *)
Theorem unchecked_operations_always_return :
  forall (i : invocation) (log : list request),
    always_dispatches i = true ->
    exists v r, invoke env net to_datetime i log = (Return v, (log ++ [r])%list).
Proof.
  intros i log A.
  destruct i as [| flag | | | |]; simpl in A; try discriminate;
    [| destruct flag as [| [|] | | | |]; try discriminate |].
  all: clear A.
  all: match goal with
       | |- exists v r, ?c = _ => destruct c as [o log'] eqn:E; revert E
       end.
  all: unfold_body; simpl.
  all: repeat case_head.
  all: intros E; injection E as E1 E2; subst.
  all: eexists; eexists; reflexivity.
Qed.



(** X9.  In [get_selected_backtests] an offset goes through [int] before
    it is used: two truthy offsets with the same integer value (10, "10",
    " 010 ") give the same call, at [init_ahead] and at [end_ahead]. *)
Theorem offsets_are_converted :
  forall (run init_date end_date other timezone v w : pyval) (n : Z) (log : list request),
    truthy v = true -> truthy w = true ->
    py_int v = Return n -> py_int w = Return n ->
    get_selected_backtests env net to_datetime run init_date end_date v other timezone log
    = get_selected_backtests env net to_datetime run init_date end_date w other timezone log
    /\ get_selected_backtests env net to_datetime run init_date end_date other v timezone log
       = get_selected_backtests env net to_datetime run init_date end_date other w timezone log.
Proof.
  intros run init_date end_date other timezone v w n log Tv Tw Iv Iw.
  split; unfold_body; simpl; rewrite Tv, Tw, Iv, Iw; reflexivity.
Qed.


(** X11.  [get_selected_backtests], with arguments that can be written
    into the URL, sends its request whenever every check passes: [run]
    converts, the dates pass, the offsets are absent or not negative, and
    two positive offsets are in strict order.  The request has the URL of
    the rule and the token. *)
Theorem valid_call_is_sent :
  forall (run init_date end_date timezone : pyval) (init_ahead end_ahead : option Z)
         (n : Z) (log : list request),
    arguments_format
      (SelectedBacktests run init_date end_date
         (opt_int init_ahead) (opt_int end_ahead) timezone) = true ->
    py_int run = Return n ->
    date_passes to_datetime init_date ->
    date_passes to_datetime end_date ->
    (forall a, init_ahead = Some a -> 0 <= a) ->
    (forall b, end_ahead = Some b -> 0 <= b) ->
    (forall a b, init_ahead = Some a -> end_ahead = Some b -> 0 < a -> 0 < b -> a < b) ->
    exists o,
      get_selected_backtests env net to_datetime run init_date end_date
        (opt_int init_ahead) (opt_int end_ahead) timezone log
      = (o, (log ++ [mkRequest
                       (spec_url (SelectedBacktests run init_date end_date
                                    (opt_int init_ahead) (opt_int end_ahead) timezone))
                       [("Authorization", API_TOKEN env)]])%list).
Proof.
  intros run init_date end_date timezone init_ahead end_ahead n log _ R Di De Ha Hb Ho.
  destruct init_ahead as [a |]; [specialize (Ha a eq_refl) |];
    (destruct end_ahead as [b |]; [specialize (Hb b eq_refl) |]); simpl opt_int.
  1: specialize (Ho a b eq_refl eq_refl).
  all: name_call.
  all: unfold_body; unfold spec_url, url_template, date_param, ahead_param; simpl;
    rewrite R; simpl.
  all: repeat case_head.
  all: intros E; injection E as E1 E2; subst.
  all: use_dates; bool_to_prop; try congruence; try lia.
  all: simpl; use_cases; simpl; repeat rewrite str_app_assoc; simpl;
    repeat rewrite str_app_nil_r.
  all: try (eexists; reflexivity).
Qed.

(** X12.  A [run] given as the decimal string of an integer ([str(n)],
    for an [n] of no more digits than the limit) is accepted by [int],
    which gives the integer back, and every operation does with it what it
    does with the integer itself. *)
Theorem decimal_string_run_is_the_integer :
  forall (i : invocation) (n : Z) (log : list request),
    decimal_digits n <= int_max_str_digits ->
    py_int (PyStr (str_of_Z n)) = Return n
    /\ invoke env net to_datetime (with_run (PyStr (str_of_Z n)) i) log
       = invoke env net to_datetime (with_run (PyInt n) i) log.
Proof.
  intros i n log L.
  pose proof (py_int_str_of_Z n L) as I.
  split; [exact I |].
  destruct i; simpl with_run; unfold invoke; try reflexivity.
  all: unfold get_selected_forecast, get_backtests_info, get_selected_backtests.
  all: rewrite I; reflexivity.
Qed.

(** X13.  [get_my_projects(True)]: when no two projects of ["runs"] have
    equal ids, the dict returned has one entry per project, id and name,
    in the order of the list. *)
Theorem distinct_ids_keep_every_project :
  forall (log : list request) (resp : response) (body : pyval)
         (runs : list pyval) (projects : list (pyval * pyval)),
    net (projects_request env) = Return resp ->
    status_code resp = 200 ->
    json resp = Return body ->
    py_getitem body "control" = Return (PyStr "Success") ->
    py_getitem body "runs" = Return (PyList runs) ->
    Forall2 is_project runs projects ->
    distinct_ids projects ->
    get_my_projects env net (PyBool true) log
    = (Return (PyDict projects), (log ++ [projects_request env])%list).
Proof.
  intros log resp body runs projects N S J C R F D.
  unfold projects_request in *. unfold_body. simpl in *.
  rewrite N, S, J. simpl. rewrite C. simpl. rewrite R. simpl.
  rewrite (comprehension_stores runs projects [] F).
  rewrite fold_store_distinct by exact D. reflexivity.
Qed.

(** X14.  [get_my_projects(True)] on a 200 response whose body lacks what
    is read of it: when reading ["control"] fails, or ["control"] is
    ["Success"] and reading ["runs"] fails, or a record of ["runs"] has no
    ["id"] or no ["name"], the call returns the message of that exception
    as an error string.  One bad record loses the whole mapping. *)
Theorem my_projects_reports_a_malformed_body :
  forall (log : list request) (resp : response) (body : pyval) (e : exn),
    net (projects_request env) = Return resp ->
    status_code resp = 200 ->
    json resp = Return body ->
    (py_getitem body "control" = Raise e
     \/ (py_getitem body "control" = Return (PyStr "Success")
         /\ (py_getitem body "runs" = Raise e
             \/ exists (good : list pyval) (pairs : list (pyval * pyval))
                       (p : pyval) (rest : list pyval),
                 py_getitem body "runs" = Return (PyList (good ++ p :: rest)%list)
                 /\ Forall2 is_project good pairs
                 /\ (py_getitem p "id" = Raise e
                     \/ exists k,
                         py_getitem p "id" = Return k
                         /\ py_getitem p "name" = Raise e)))) ->
    get_my_projects env net (PyBool true) log
    = (Return (PyStr ("Error: An exception occurred - " ++ exn_str e)),
       (log ++ [projects_request env])%list).
Proof.
  intros log resp body e N S J H.
  unfold projects_request in *. unfold_body. simpl in *.
  rewrite N, S, J. simpl.
  destruct H as [C | [C [R | (good & pairs & p & rest & R & F & B)]]].
  - rewrite C. reflexivity.
  - rewrite C. simpl. rewrite R. reflexivity.
  - rewrite C. simpl. rewrite R. simpl.
    rewrite (comprehension_fails good pairs [] p rest e F B). reflexivity.
Qed.

(** X15.  The arguments go into the URL as they are, without escaping: in
    [get_forecasts_info] a [run] that ends with [&timezone=b] and the
    timezone [c] give the call of the [run] without that end and the
    timezone [b&timezone=c]. *)
Theorem arguments_are_not_escaped :
  forall (a b c : string) (log : list request),
    get_forecasts_info env net (PyStr (a ++ "&timezone=" ++ b)) (PyStr c) log
    = get_forecasts_info env net (PyStr a) (PyStr (b ++ "&timezone=" ++ c)) log.
Proof.
  intros a b c log. unfold get_forecasts_info. cbn [py_str].
  replace ("https://api.sirocco.energy/national/forecast/" ++ API_VERSION ++ "/?run="
             ++ (a ++ "&timezone=" ++ b) ++ "&timezone=" ++ c)
    with ("https://api.sirocco.energy/national/forecast/" ++ API_VERSION ++ "/?run="
            ++ a ++ "&timezone=" ++ b ++ "&timezone=" ++ c).
  - reflexivity.
  - repeat rewrite <- str_app_assoc. reflexivity.
Qed.

(** X18.  A [run] given as a string of more digits than [int] converts
    (4301 digits, say) is rejected like a string that is no number: each
    of the three operations that check [run] returns the error string of
    [run] and sends nothing. *)
Theorem over_long_run_is_rejected :
  forall (i : invocation) (s : string) (log : list request),
    validates_run i = true ->
    run_of i = Some (PyStr s) ->
    int_max_str_digits < counted_digits s ->
    invoke env net to_datetime i log = (Return run_error, log).
Proof.
  intros i s log V R L. apply Z.ltb_lt in L.
  destruct i; simpl in V, R; try discriminate; injection R as ->.
  all: unfold invoke, get_selected_forecast, get_backtests_info, get_selected_backtests.
  all: cbn [py_int]; rewrite L; reflexivity.
Qed.

(** X19.  In [get_selected_backtests] an offset on which [int] raises
    ends the call without a request: with the error string of the offset
    for a [ValueError] (a string that is no number: the message speaks of
    the sign all the same), and with the exception itself otherwise (a
    list).  This is so at [init_ahead] once [run] and the dates have
    passed, and at [end_ahead] once [init_ahead] has passed too. *)
Theorem refused_offset_ends_the_call :
  forall (run init_date end_date init_ahead end_ahead timezone : pyval) (n : Z) (e : exn)
         (log : list request),
    forallb formats [run; timezone; init_date; end_date] = true ->
    py_int run = Return n ->
    date_passes to_datetime init_date ->
    date_passes to_datetime end_date ->
    (truthy init_ahead = true ->
     py_int init_ahead = Raise e ->
     get_selected_backtests env net to_datetime run init_date end_date
       init_ahead end_ahead timezone log
     = (if is_ValueError e then Return init_ahead_error else Raise e, log))
    /\ (formats init_ahead = true ->
        offset_passes init_ahead ->
        truthy end_ahead = true ->
        py_int end_ahead = Raise e ->
        get_selected_backtests env net to_datetime run init_date end_date
          init_ahead end_ahead timezone log
        = (if is_ValueError e then Return end_ahead_error else Raise e, log)).
Proof.
  intros run init_date end_date init_ahead end_ahead timezone n e log _ R Di De. split.
  - intros T I. unfold_body; simpl. rewrite R, T, I; simpl.
    repeat case_head.
    all: try reflexivity.
    all: use_dates; congruence.
  - intros _ Oi T I. unfold_body; simpl. rewrite R, T, I; simpl.
    repeat case_head.
    all: try reflexivity.
    all: use_dates; try congruence.
    all: match goal with
         | O : offset_passes ?v, H : truthy ?v = true |- _ =>
             let k := fresh "k" in
             let Hk := fresh "Hk" in
             let Hpos := fresh "Hpos" in
             destruct (O H) as (k & Hk & Hpos)
         end.
    all: bool_to_prop; try congruence.
    all: match goal with
         | P : py_int ?v = Return ?x, Q : py_int ?v = Return ?y |- _ =>
             assert (x = y) by congruence; subst; lia
         end.
Qed.

End FurtherProperties.

(** ** The module run on examples *)

Lemma date_passes_none : date_passes shape_to_datetime PyNone.
Proof. intros H. discriminate H. Qed.

Lemma date_passes_a_date : date_passes shape_to_datetime a_date.
Proof. intros _. exists a_date. reflexivity. Qed.

Lemma north_south_projects :
  Forall2 is_project north_south [(PyInt 3, PyStr "north"); (PyInt 4, PyStr "south")].
Proof. repeat constructor. Qed.

(** *** C1 *)

(** [run_rejected_without_request] at [get_selected_forecast(run="abc")]. *)
Lemma run_rejected_without_request_witness :
  validates_run (SelectedForecast (PyStr "abc") UTC PyNone PyNone) = true
  /\ run_of (SelectedForecast (PyStr "abc") UTC PyNone PyNone) = Some (PyStr "abc")
  /\ py_int (PyStr "abc")
     = Raise (mkExn ValueError "invalid literal for int() with base 10: 'abc'")
  /\ is_ValueError (mkExn ValueError "invalid literal for int() with base 10: 'abc'") = true
  /\ invoke None data_net shape_to_datetime
       (SelectedForecast (PyStr "abc") UTC PyNone PyNone) []
     = (Return run_error, []).
Proof.
  split; [reflexivity |]. split; [reflexivity |]. split; [reflexivity |].
  split; [reflexivity |].
  apply (run_rejected_without_request None data_net shape_to_datetime
           (SelectedForecast (PyStr "abc") UTC PyNone PyNone) (PyStr "abc")
           (mkExn ValueError "invalid literal for int() with base 10: 'abc'") []);
    reflexivity.
Defined.

(** C1 as stated fails: [get_forecasts_info(run="abc")] sends its request
    with [run=abc] and returns what the network answers, and
    [get_selected_forecast(run=None)] raises a [TypeError]; neither
    returns the error string of [run]. *)
Lemma run_check_counterexample :
  (parse_int "abc" = None
   /\ get_forecasts_info None data_net (PyStr "abc") UTC []
      = (Return (PyStr "data"),
         [mkRequest "https://api.sirocco.energy/national/forecast/v1.1/?run=abc&timezone=UTC"
                    auth])
   /\ get_forecasts_info None data_net (PyStr "abc") UTC [] <> (Return run_error, []))
  /\ (get_selected_forecast None data_net shape_to_datetime PyNone UTC PyNone PyNone []
      = (Raise (int_type_error PyNone), [])
      /\ get_selected_forecast None data_net shape_to_datetime PyNone UTC PyNone PyNone []
         <> (Return run_error, [])).
Proof.
  repeat split; try reflexivity; intros H; discriminate H.
Qed.

(** *** C2 *)


(** *** C3 *)



(** *** C4 *)


(** *** C5 *)

(** [url_construction] at [run=42] with a date and the offsets 10 and 30. *)
Lemma url_construction_witness :
  invoke None data_net shape_to_datetime
    (SelectedBacktests (PyInt 42) a_date PyNone (PyInt 10) (PyInt 30) UTC) []
  = (Return (PyStr "data"),
     ([] ++ [mkRequest
               ("https://api.sirocco.energy/national/selectedbacktests/v1.1/"
                  ++ "?run=42&timezone=UTC&init=2024-01-01 00:00:00"
                  ++ "&init_ahead=10&end_ahead=30")
               auth])%list)
  /\ req_url (mkRequest
                ("https://api.sirocco.energy/national/selectedbacktests/v1.1/"
                   ++ "?run=42&timezone=UTC&init=2024-01-01 00:00:00"
                   ++ "&init_ahead=10&end_ahead=30")
                auth)
     = spec_url (SelectedBacktests (PyInt 42) a_date PyNone (PyInt 10) (PyInt 30) UTC).
Proof.
  split; [reflexivity |].
  apply (proj1 (url_construction None data_net shape_to_datetime)
           (SelectedBacktests (PyInt 42) a_date PyNone (PyInt 10) (PyInt 30) UTC)
           (Return (PyStr "data")) []).
  reflexivity.
Defined.

(** C5 as stated fails: [init_ahead=0] is supplied, and the URL has no
    [&init_ahead=0]. *)
Lemma zero_offset_is_not_appended :
  get_selected_backtests None data_net shape_to_datetime
    (PyInt 42) PyNone PyNone (PyInt 0) (PyInt 30) UTC []
  = (Return (PyStr "data"),
     [mkRequest
        ("https://api.sirocco.energy/national/selectedbacktests/v1.1/"
           ++ "?run=42&timezone=UTC&end_ahead=30")
        auth])
  /\ get_selected_backtests None data_net shape_to_datetime
       (PyInt 42) PyNone PyNone (PyInt 0) (PyInt 30) UTC []
     <> (Return (PyStr "data"),
         [mkRequest
            ("https://api.sirocco.energy/national/selectedbacktests/v1.1/"
               ++ "?run=42&timezone=UTC&init_ahead=0&end_ahead=30")
            auth]).
Proof.
  split; [reflexivity |]. intros H. discriminate H.
Qed.

(** *** C6 *)

(** [response_classification] at a 200 answer to [get_forecasts_info] and
    at a 404 answer to [get_available_timezones]. *)
Lemma response_classification_witness :
  (invoke None data_net shape_to_datetime (ForecastsInfo (PyInt 7) UTC) []
   = (Return (PyStr "data"),
      ([] ++ [mkRequest
                "https://api.sirocco.energy/national/forecast/v1.1/?run=7&timezone=UTC"
                auth])%list)
   /\ status_code (mkResponse 200 (Return (PyStr "data"))) = 200
   /\ Return (PyStr "data") = Return (PyStr "data"))
  /\ (invoke None not_found_net shape_to_datetime AvailableTimezones []
      = (Return (PyStr "Error: Received response with status code 404"),
         ([] ++ [mkRequest "https://api.sirocco.energy/national/timezones/v1.1/" []])%list)
      /\ status_code (mkResponse 404 (Return PyNone)) <> 200
      /\ Return (PyStr "Error: Received response with status code 404")
         = Return (PyStr ("Error: Received response with status code "
                            ++ str_of_Z (status_code (mkResponse 404 (Return PyNone)))))).
Proof.
  split.
  - split; [reflexivity |]. split; [reflexivity |].
    apply (proj1 (response_classification None data_net shape_to_datetime
                    (ForecastsInfo (PyInt 7) UTC) (Return (PyStr "data")) [] _ eq_refl)
             (mkResponse 200 (Return (PyStr "data"))) (PyStr "data"));
      [reflexivity | reflexivity | reflexivity | intros H; discriminate H].
  - split; [reflexivity |]. split; [intros H; discriminate H |].
    apply (proj1 (proj2 (response_classification None not_found_net shape_to_datetime
                           AvailableTimezones _ [] _ eq_refl))
             (mkResponse 404 (Return PyNone)));
      [reflexivity | intros H; discriminate H].
Defined.

(** C6 as stated fails: on a status 200 [get_my_projects(True)] returns
    the mapping from id to name, not the body. *)
Lemma my_projects_returns_mapping_not_body :
  projects_net (projects_request None) = json_ok 200 projects_body
  /\ get_my_projects None projects_net (PyBool true) []
     = (Return (PyDict [(PyInt 3, PyStr "north"); (PyInt 4, PyStr "south")]),
        [projects_request None])
  /\ get_my_projects None projects_net (PyBool true) []
     <> (Return projects_body, [projects_request None]).
Proof.
  split; [reflexivity |]. split; [reflexivity |]. intros H. discriminate H.
Qed.

(** *** C7 *)

(** [my_projects_contract] at the flag [1], and at the flags [True] and
    [False] with a body of two projects. *)
Lemma my_projects_contract_witness :
  (isinstance_bool (PyInt 1) = false
   /\ get_my_projects None projects_net (PyInt 1) [] = (Raise flag_error, []))
  /\ (status_code (mkResponse 200 (Return projects_body)) = 200
      /\ py_getitem projects_body "control" = Return (PyStr "Success")
      /\ py_getitem projects_body "runs" = Return (PyList north_south)
      /\ Forall2 is_project north_south [(PyInt 3, PyStr "north"); (PyInt 4, PyStr "south")]
      /\ exists mapping,
          get_my_projects None projects_net (PyBool true) []
          = (Return (PyDict mapping), ([] ++ [projects_request None])%list)
          /\ forall q,
              dict_get mapping q
              = dict_get (rev [(PyInt 3, PyStr "north"); (PyInt 4, PyStr "south")]) q)
  /\ (get_my_projects None projects_net (PyBool false) []
      = (Return projects_body, ([] ++ [projects_request None])%list)).
Proof.
  destruct (my_projects_contract None projects_net) as (P1 & P2 & P3).
  split; [| split].
  - split; [reflexivity |]. apply P1. reflexivity.
  - split; [reflexivity |]. split; [reflexivity |]. split; [reflexivity |].
    split; [exact north_south_projects |].
    apply (P2 [] (mkResponse 200 (Return projects_body)) projects_body north_south
              [(PyInt 3, PyStr "north"); (PyInt 4, PyStr "south")]);
      [reflexivity | reflexivity | reflexivity | reflexivity | reflexivity
      | exact north_south_projects].
  - apply (P3 [] (mkResponse 200 (Return projects_body)) projects_body false);
      [reflexivity | reflexivity | reflexivity | left; reflexivity].
Defined.

(** C7 as stated fails: with the flag [True] and a 200 response whose
    body has no ["control"] to equal ["Success"] (the string ["data"], the
    empty dict), the call is in the last case of the claim, yet it returns
    an error string, not the body; and with a ["control"] that is
    ["Success"] and no ["runs"] it returns an error string, not a
    mapping. *)
Lemma my_projects_body_without_control :
  (data_net (projects_request None) = json_ok 200 (PyStr "data")
   /\ get_my_projects None data_net (PyBool true) []
      = (Return (PyStr ("Error: An exception occurred - "
                          ++ "string indices must be integers, not 'str'")),
         [projects_request None])
   /\ get_my_projects None data_net (PyBool true) []
      <> (Return (PyStr "data"), [projects_request None]))
  /\ (get_my_projects None (answering (json_ok 200 (PyDict []))) (PyBool true) []
      = (Return (PyStr "Error: An exception occurred - 'control'"), [projects_request None])
      /\ get_my_projects None (answering (json_ok 200 (PyDict []))) (PyBool true) []
         <> (Return (PyDict []), [projects_request None]))
  /\ (py_getitem success_only "control" = Return (PyStr "Success")
      /\ get_my_projects None (answering (json_ok 200 success_only)) (PyBool true) []
         = (Return (PyStr "Error: An exception occurred - 'runs'"), [projects_request None])).
Proof.
  repeat split; try reflexivity; intros H; discriminate H.
Qed.

(** *** C8 *)

(** [run_text_in_url] at [get_selected_forecast(run="007")]. *)
Lemma run_text_in_url_witness :
  run_of (SelectedForecast (PyStr "007") UTC PyNone PyNone) = Some (PyStr "007")
  /\ py_int (PyStr "007") = Return 7
  /\ invoke None data_net shape_to_datetime
       (SelectedForecast (PyStr "007") UTC PyNone PyNone) []
     = (Return (PyStr "data"),
        ([] ++ [mkRequest
                  ("https://api.sirocco.energy/national/selectedforecast/v1.1/"
                     ++ "?run=007&timezone=UTC")
                  auth])%list)
  /\ exists suffix,
      req_url (mkRequest
                 ("https://api.sirocco.energy/national/selectedforecast/v1.1/"
                    ++ "?run=007&timezone=UTC")
                 auth)
      = "https://api.sirocco.energy/national/"
          ++ endpoint_of (SelectedForecast (PyStr "007") UTC PyNone PyNone) ++ "/"
          ++ API_VERSION ++ "/?run=" ++ py_str (PyStr "007") ++ "&timezone="
          ++ py_str (timezone_of (SelectedForecast (PyStr "007") UTC PyNone PyNone))
          ++ suffix.
Proof.
  split; [reflexivity |]. split; [reflexivity |]. split; [reflexivity |].
  apply (run_text_in_url None data_net shape_to_datetime
           (SelectedForecast (PyStr "007") UTC PyNone PyNone) (PyStr "007") 7
           (Return (PyStr "data")) []);
    reflexivity.
Defined.

(** C8 as stated fails: ["007"] and [" 42 "] are accepted, and go into the
    URL as they are; the request for ["007"] is not the request for [7]. *)
Lemma numeric_string_is_not_normalized :
  py_int (PyStr "007") = Return 7
  /\ py_int (PyStr " 42 ") = Return 42
  /\ get_selected_forecast None data_net shape_to_datetime (PyStr "007") UTC PyNone PyNone []
     = (Return (PyStr "data"),
        [mkRequest
           "https://api.sirocco.energy/national/selectedforecast/v1.1/?run=007&timezone=UTC"
           auth])
  /\ get_selected_forecast None data_net shape_to_datetime (PyInt 7) UTC PyNone PyNone []
     = (Return (PyStr "data"),
        [mkRequest
           "https://api.sirocco.energy/national/selectedforecast/v1.1/?run=7&timezone=UTC"
           auth])
  /\ get_selected_backtests None data_net shape_to_datetime
       (PyStr " 42 ") PyNone PyNone PyNone PyNone UTC []
     = (Return (PyStr "data"),
        [mkRequest
           ("https://api.sirocco.energy/national/selectedbacktests/v1.1/"
              ++ "?run= 42 &timezone=UTC")
           auth])
  /\ get_selected_forecast None data_net shape_to_datetime (PyStr "007") UTC PyNone PyNone []
     <> get_selected_forecast None data_net shape_to_datetime (PyInt 7) UTC PyNone PyNone [].
Proof.
  repeat split; try reflexivity. intros H. discriminate H.
Qed.

(** *** C9 *)


(** The example of C9: the offsets 0 and 0 neither raise nor return an
    error. *)
Remark zero_and_zero :
  get_selected_backtests None data_net shape_to_datetime
    (PyInt 42) PyNone PyNone (PyInt 0) (PyInt 0) UTC []
  = get_selected_backtests None data_net shape_to_datetime
      (PyInt 42) PyNone PyNone PyNone PyNone UTC [].
Proof. reflexivity. Qed.

(** *** C10 *)

(** [run_type_error_propagates] at [get_selected_backtests(run=None)]. *)
Lemma run_type_error_propagates_witness :
  validates_run (SelectedBacktests PyNone PyNone PyNone PyNone PyNone UTC) = true
  /\ run_of (SelectedBacktests PyNone PyNone PyNone PyNone PyNone UTC) = Some PyNone
  /\ py_int PyNone = Raise (int_type_error PyNone)
  /\ is_ValueError (int_type_error PyNone) = false
  /\ invoke None data_net shape_to_datetime
       (SelectedBacktests PyNone PyNone PyNone PyNone PyNone UTC) []
     = (Raise (int_type_error PyNone), []).
Proof.
  split; [reflexivity |]. split; [reflexivity |]. split; [reflexivity |].
  split; [reflexivity |].
  apply (run_type_error_propagates None data_net shape_to_datetime
           (SelectedBacktests PyNone PyNone PyNone PyNone PyNone UTC) PyNone
           (int_type_error PyNone) []);
    reflexivity.
Defined.

(** C10 as stated fails: [get_forecasts_info] takes a [run] and converts
    nothing; with [run=None], on which [int] raises a [TypeError], it
    raises nothing and sends its request with [run=None]. *)
Lemma forecasts_info_converts_nothing :
  py_int PyNone = Raise (int_type_error PyNone)
  /\ is_ValueError (int_type_error PyNone) = false
  /\ run_of (ForecastsInfo PyNone UTC) = Some PyNone
  /\ invoke None data_net shape_to_datetime (ForecastsInfo PyNone UTC) []
     = (Return (PyStr "data"),
        [mkRequest "https://api.sirocco.energy/national/forecast/v1.1/?run=None&timezone=UTC"
                   auth])
  /\ invoke None data_net shape_to_datetime (ForecastsInfo PyNone UTC) []
     <> (Raise (int_type_error PyNone), []).
Proof.
  repeat split; try reflexivity; intros H; discriminate H.
Qed.

(** *** The further properties on examples *)

Lemma valid_noon : valid_datetime noon.
Proof. unfold valid_datetime, noon; simpl; lia. Qed.

Lemma at_most_one_request_witness :
  invoke None data_net shape_to_datetime (ForecastsInfo (PyInt 7) UTC) []
  = (Return (PyStr "data"),
     [mkRequest "https://api.sirocco.energy/national/forecast/v1.1/?run=7&timezone=UTC" auth])
  /\ ([mkRequest "https://api.sirocco.energy/national/forecast/v1.1/?run=7&timezone=UTC" auth]
      = []
      \/ exists r,
          [mkRequest "https://api.sirocco.energy/national/forecast/v1.1/?run=7&timezone=UTC"
                     auth]
          = ([] ++ [r])%list).
Proof.
  split; [reflexivity |].
  apply (at_most_one_request None data_net shape_to_datetime
           (ForecastsInfo (PyInt 7) UTC) (Return (PyStr "data")) []).
  reflexivity.
Defined.

Lemma raise_sends_nothing_witness :
  invoke None data_net shape_to_datetime
    (SelectedBacktests (PyInt 42) PyNone PyNone (PyInt 30) (PyInt 10) UTC) []
  = (Raise order_error, [])
  /\ arguments_format
       (SelectedBacktests (PyInt 42) PyNone PyNone (PyInt 30) (PyInt 10) UTC) = true
  /\ [] = ([] : list request)
  /\ (order_error = flag_error \/ order_error = order_error
      \/ is_ValueError order_error = false).
Proof.
  split; [reflexivity |]. split; [vm_compute; reflexivity |].
  destruct (raise_sends_nothing None data_net shape_to_datetime
              (SelectedBacktests (PyInt 42) PyNone PyNone (PyInt 30) (PyInt 10) UTC)
              order_error [] [] eq_refl) as [P Q].
  split; [exact P | apply Q; vm_compute; reflexivity].
Defined.

Lemma return_without_request_is_error_string_witness :
  invoke None data_net shape_to_datetime
    (BacktestsInfo (PyStr "abc") UTC PyNone PyNone) []
  = (Return run_error, [])
  /\ exists msg, run_error = PyStr ("Error: " ++ msg).
Proof.
  split; [reflexivity |].
  apply (return_without_request_is_error_string None data_net shape_to_datetime
           (BacktestsInfo (PyStr "abc") UTC PyNone PyNone) run_error []).
  reflexivity.
Defined.


Lemma selected_backtests_raise_sources_witness :
  arguments_format (SelectedBacktests PyNone PyNone PyNone (PyInt 10) PyNone UTC) = true
  /\ get_selected_backtests None data_net shape_to_datetime
       PyNone PyNone PyNone (PyInt 10) PyNone UTC []
     = (Raise (int_type_error PyNone), [])
  /\ (int_type_error PyNone = order_error
      \/ py_int PyNone = Raise (int_type_error PyNone)
      \/ shape_to_datetime PyNone date_format = Raise (int_type_error PyNone)
      \/ shape_to_datetime PyNone date_format = Raise (int_type_error PyNone)
      \/ py_int (PyInt 10) = Raise (int_type_error PyNone)
      \/ py_int PyNone = Raise (int_type_error PyNone)).
Proof.
  split; [vm_compute; reflexivity |]. split; [reflexivity |].
  apply (selected_backtests_raise_sources None data_net shape_to_datetime
           PyNone PyNone PyNone (PyInt 10) PyNone UTC (int_type_error PyNone) [] []);
    [vm_compute; reflexivity | reflexivity].
Defined.

Lemma unchecked_operations_always_return_witness :
  always_dispatches (ForecastsInfo (PyBool true) PyNone) = true
  /\ exists v r,
      invoke None not_found_net shape_to_datetime (ForecastsInfo (PyBool true) PyNone) []
      = (Return v, ([] ++ [r])%list).
Proof.
  split; [reflexivity |].
  apply (unchecked_operations_always_return None not_found_net shape_to_datetime
           (ForecastsInfo (PyBool true) PyNone) []).
  reflexivity.
Defined.



Lemma offsets_are_converted_witness :
  truthy (PyInt 10) = true /\ truthy (PyStr " 010 ") = true
  /\ py_int (PyInt 10) = Return 10 /\ py_int (PyStr " 010 ") = Return 10
  /\ get_selected_backtests None data_net shape_to_datetime
       (PyInt 42) PyNone PyNone (PyInt 10) (PyInt 30) UTC []
     = get_selected_backtests None data_net shape_to_datetime
         (PyInt 42) PyNone PyNone (PyStr " 010 ") (PyInt 30) UTC []
  /\ get_selected_backtests None data_net shape_to_datetime
       (PyInt 42) PyNone PyNone (PyInt 30) (PyInt 10) UTC []
     = get_selected_backtests None data_net shape_to_datetime
         (PyInt 42) PyNone PyNone (PyInt 30) (PyStr " 010 ") UTC [].
Proof.
  split; [reflexivity |]. split; [reflexivity |]. split; [reflexivity |].
  split; [reflexivity |].
  apply (offsets_are_converted None data_net shape_to_datetime
           (PyInt 42) PyNone PyNone (PyInt 30) UTC (PyInt 10) (PyStr " 010 ") 10 []);
    reflexivity.
Defined.


Lemma valid_call_is_sent_witness :
  arguments_format
    (SelectedBacktests (PyStr "42") a_date a_date
       (opt_int (Some 10)) (opt_int (Some 30)) UTC) = true
  /\ py_int (PyStr "42") = Return 42
  /\ date_passes shape_to_datetime a_date
  /\ (forall a, Some 10 = Some a -> 0 <= a)
  /\ (forall b, Some 30 = Some b -> 0 <= b)
  /\ (forall a b, Some 10 = Some a -> Some 30 = Some b -> 0 < a -> 0 < b -> a < b)
  /\ exists o,
      get_selected_backtests None data_net shape_to_datetime
        (PyStr "42") a_date a_date (opt_int (Some 10)) (opt_int (Some 30)) UTC []
      = (o, ([] ++ [mkRequest
                      (spec_url (SelectedBacktests (PyStr "42") a_date a_date
                                   (opt_int (Some 10)) (opt_int (Some 30)) UTC))
                      [("Authorization", API_TOKEN None)]])%list).
Proof.
  assert (H10 : forall a, Some 10 = Some a -> 0 <= a)
    by (intros a E; injection E as <-; lia).
  assert (H30 : forall b, Some 30 = Some b -> 0 <= b)
    by (intros b E; injection E as <-; lia).
  assert (Ho : forall a b, Some 10 = Some a -> Some 30 = Some b -> 0 < a -> 0 < b -> a < b)
    by (intros a b E1 E2 _ _; injection E1 as <-; injection E2 as <-; lia).
  split; [vm_compute; reflexivity |].
  split; [reflexivity |]. split; [exact date_passes_a_date |]. split; [exact H10 |].
  split; [exact H30 |]. split; [exact Ho |].
  apply (valid_call_is_sent None data_net shape_to_datetime
           (PyStr "42") a_date a_date UTC (Some 10) (Some 30) 42 []);
    [vm_compute; reflexivity | reflexivity | exact date_passes_a_date
    | exact date_passes_a_date | exact H10 | exact H30 | exact Ho].
Defined.

Lemma decimal_string_run_is_the_integer_witness :
  decimal_digits (-42) <= int_max_str_digits
  /\ str_of_Z (-42) = "-42"
  /\ py_int (PyStr (str_of_Z (-42))) = Return (-42)
  /\ invoke None data_net shape_to_datetime
       (with_run (PyStr (str_of_Z (-42))) (SelectedForecast PyNone UTC PyNone PyNone)) []
     = invoke None data_net shape_to_datetime
         (with_run (PyInt (-42)) (SelectedForecast PyNone UTC PyNone PyNone)) [].
Proof.
  assert (L : decimal_digits (-42) <= int_max_str_digits)
    by (apply Z.leb_le; vm_compute; reflexivity).
  split; [exact L |]. split; [reflexivity |].
  exact (decimal_string_run_is_the_integer None data_net shape_to_datetime
           (SelectedForecast PyNone UTC PyNone PyNone) (-42) [] L).
Defined.

Lemma distinct_ids_keep_every_project_witness :
  status_code (mkResponse 200 (Return projects_body)) = 200
  /\ py_getitem projects_body "control" = Return (PyStr "Success")
  /\ py_getitem projects_body "runs" = Return (PyList north_south)
  /\ Forall2 is_project north_south [(PyInt 3, PyStr "north"); (PyInt 4, PyStr "south")]
  /\ distinct_ids [(PyInt 3, PyStr "north"); (PyInt 4, PyStr "south")]
  /\ get_my_projects None projects_net (PyBool true) []
     = (Return (PyDict [(PyInt 3, PyStr "north"); (PyInt 4, PyStr "south")]),
        ([] ++ [projects_request None])%list).
Proof.
  assert (D : distinct_ids [(PyInt 3, PyStr "north"); (PyInt 4, PyStr "south")])
    by (repeat constructor).
  split; [reflexivity |]. split; [reflexivity |]. split; [reflexivity |].
  split; [exact north_south_projects |]. split; [exact D |].
  apply (distinct_ids_keep_every_project None projects_net []
           (mkResponse 200 (Return projects_body)) projects_body north_south
           [(PyInt 3, PyStr "north"); (PyInt 4, PyStr "south")]);
    [reflexivity | reflexivity | reflexivity | reflexivity | reflexivity
    | exact north_south_projects | exact D].
Defined.

Lemma my_projects_reports_a_malformed_body_witness :
  py_getitem
    (PyDict [(PyStr "control", PyStr "Success");
             (PyStr "runs", PyList (north_south ++ no_id :: [])%list)]) "control"
  = Return (PyStr "Success")
  /\ Forall2 is_project north_south [(PyInt 3, PyStr "north"); (PyInt 4, PyStr "south")]
  /\ py_getitem no_id "id" = Raise (mkExn KeyError "'id'")
  /\ get_my_projects None
       (answering
          (json_ok 200
             (PyDict [(PyStr "control", PyStr "Success");
                      (PyStr "runs", PyList (north_south ++ no_id :: [])%list)])))
       (PyBool true) []
     = (Return (PyStr ("Error: An exception occurred - " ++ exn_str (mkExn KeyError "'id'"))),
        ([] ++ [projects_request None])%list).
Proof.
  split; [reflexivity |]. split; [exact north_south_projects |]. split; [reflexivity |].
  apply (my_projects_reports_a_malformed_body None _ []
           (mkResponse 200
              (Return (PyDict [(PyStr "control", PyStr "Success");
                               (PyStr "runs", PyList (north_south ++ no_id :: [])%list)])))
           (PyDict [(PyStr "control", PyStr "Success");
                    (PyStr "runs", PyList (north_south ++ no_id :: [])%list)])
           (mkExn KeyError "'id'"));
    [reflexivity | reflexivity | reflexivity |].
  right. split; [reflexivity |]. right.
  exists north_south, [(PyInt 3, PyStr "north"); (PyInt 4, PyStr "south")], no_id, [].
  split; [reflexivity |]. split; [exact north_south_projects |]. left. reflexivity.
Defined.

Lemma utc_datetime_shape_witness :
  valid_datetime noon
  /\ get_current_utc_datetime noon = "2024/03/09 12:00:05"
  /\ has_shape "dddd/dd/dd dd:dd:dd" (get_current_utc_datetime noon) = true
  /\ String.length (get_current_utc_datetime noon) = 19%nat
  /\ has_shape "dddd-dd-dd dd:dd:dd" (get_current_utc_datetime noon) = false.
Proof.
  split; [exact valid_noon |]. split; [reflexivity |].
  exact (utc_datetime_shape noon valid_noon).
Defined.

Lemma utc_datetime_injective_witness :
  valid_datetime noon
  /\ get_current_utc_datetime noon = get_current_utc_datetime (mkDatetime 2024 3 9 12 0 5)
  /\ noon = mkDatetime 2024 3 9 12 0 5.
Proof.
  split; [exact valid_noon |]. split; [reflexivity |].
  apply (utc_datetime_injective noon (mkDatetime 2024 3 9 12 0 5) valid_noon valid_noon).
  reflexivity.
Defined.

Lemma over_long_run_is_rejected_witness :
  validates_run (SelectedForecast (PyStr (sevens 4301)) UTC PyNone PyNone) = true
  /\ run_of (SelectedForecast (PyStr (sevens 4301)) UTC PyNone PyNone)
     = Some (PyStr (sevens 4301))
  /\ counted_digits (sevens 4301) = 4301
  /\ invoke None data_net shape_to_datetime
       (SelectedForecast (PyStr (sevens 4301)) UTC PyNone PyNone) []
     = (Return run_error, []).
Proof.
  split; [reflexivity |]. split; [reflexivity |]. split; [vm_compute; reflexivity |].
  apply (over_long_run_is_rejected None data_net shape_to_datetime
           (SelectedForecast (PyStr (sevens 4301)) UTC PyNone PyNone) (sevens 4301) []);
    [reflexivity | reflexivity | vm_compute; reflexivity].
Defined.

Lemma refused_offset_ends_the_call_witness :
  forallb formats [PyInt 42; UTC; PyNone; PyNone] = true
  /\ py_int (PyInt 42) = Return 42
  /\ date_passes shape_to_datetime PyNone
  /\ (truthy (PyStr "soon") = true
      /\ py_int (PyStr "soon") = Raise (int_literal_error "soon")
      /\ get_selected_backtests None data_net shape_to_datetime
           (PyInt 42) PyNone PyNone (PyStr "soon") (PyInt 30) UTC []
         = (Return init_ahead_error, []))
  /\ (formats (PyInt 10) = true
      /\ offset_passes (PyInt 10)
      /\ truthy (PyList [PyInt 1]) = true
      /\ py_int (PyList [PyInt 1]) = Raise (int_type_error (PyList [PyInt 1]))
      /\ get_selected_backtests None data_net shape_to_datetime
           (PyInt 42) PyNone PyNone (PyInt 10) (PyList [PyInt 1]) UTC []
         = (Raise (int_type_error (PyList [PyInt 1])), [])).
Proof.
  assert (F : forallb formats [PyInt 42; UTC; PyNone; PyNone] = true)
    by (vm_compute; reflexivity).
  assert (F10 : formats (PyInt 10) = true) by (vm_compute; reflexivity).
  assert (O10 : offset_passes (PyInt 10))
    by (intros _; exists 10; split; [reflexivity | lia]).
  split; [exact F |]. split; [reflexivity |]. split; [exact date_passes_none |].
  split.
  - split; [reflexivity |]. split; [reflexivity |].
    exact (proj1 (refused_offset_ends_the_call None data_net shape_to_datetime
                    (PyInt 42) PyNone PyNone (PyStr "soon") (PyInt 30) UTC 42
                    (int_literal_error "soon") []
                    F eq_refl date_passes_none date_passes_none)
             eq_refl eq_refl).
  - split; [exact F10 |]. split; [exact O10 |]. split; [reflexivity |].
    split; [reflexivity |].
    exact (proj2 (refused_offset_ends_the_call None data_net shape_to_datetime
                    (PyInt 42) PyNone PyNone (PyInt 10) (PyList [PyInt 1]) UTC 42
                    (int_type_error (PyList [PyInt 1])) []
                    F eq_refl date_passes_none date_passes_none)
             F10 O10 eq_refl eq_refl).
Defined.
